(** * Schedule manager of the Transformer run loop

    A shallow embedding of [official/transformer/utils/schedule.py]: the
    class [Manager], which turns a training length given in steps or in
    epochs into the quantities the train/eval loop consumes.

    Python integers are unbounded, so they are [Z]; a value that may be
    [None] is an [option Z]; a raised exception is the [Raise] branch of
    [result].  The table [dataset.NUM_EXAMPLES] lives in another module of
    the repository and is a parameter of the development. *)

From Stdlib Require Import ZArith Lia Bool String Ascii List.
From Stdlib Require Import QArith Qround DecimalString.
From Stdlib Require DecimalPos DecimalZ.
Import ListNotations.
Local Open Scope string_scope.
Local Open Scope Z_scope.

(** ** The fragment of Python the module relies on *)

Module Py.

(** The exceptions that the code of [schedule.py] can raise, with the
    message given at the raising site where there is one. *)
Inductive exn : Type :=
| ValueError (msg : string)
| AssertionError (msg : option string)
| ZeroDivisionError
| OverflowError
| TypeError.

Inductive result (A : Type) : Type :=
| Return (a : A)
| Raise (e : exn).
Arguments Return {A} a.
Arguments Raise {A} e.

Definition bind {A B : Type} (c : result A) (k : A -> result B) : result B :=
  match c with
  | Return a => k a
  | Raise e => Raise e
  end.

(** Truth value of an integer-or-None: [None] and [0] are false. *)
Definition truthy (v : option Z) : bool :=
  match v with
  | Some z => negb (z =? 0)
  | None => false
  end.

(** [v or d] for an integer-or-None [v] and an integer [d]. *)
Definition or_else (v : option Z) (d : Z) : Z :=
  match v with
  | Some z => if z =? 0 then d else z
  | None => d
  end.

(** Using a value as an operand of integer arithmetic or of an ordering
    comparison: [None] there is a [TypeError]. *)
Definition as_int (v : option Z) : result Z :=
  match v with
  | Some z => Return z
  | None => Raise TypeError
  end.

(** [a // b] on integers: the floor of the quotient. *)
Definition floordiv (a b : Z) : result Z :=
  if b =? 0 then Raise ZeroDivisionError else Return (a / b).

(** [a % b] on integers: the remainder has the sign of [b]. *)
Definition modulo (a b : Z) : result Z :=
  if b =? 0 then Raise ZeroDivisionError else Return (a mod b).

(** Rounding the quotient [p / q] to the nearest integer, a tie going to
    the even neighbour; for [0 <= p] and [0 < q]. *)
Definition round_half_even (p q : Z) : Z :=
  let below := p / q in
  let twice_rest := 2 * (p mod q) in
  if twice_rest <? q then below
  else if q <? twice_rest then below + 1
  else if Z.even below then below else below + 1.

(** [2 ^ k <= n / d], for positive [n] and [d] and any sign of [k]. *)
Definition at_least_power (n d k : Z) : bool :=
  if 0 <=? k then d * 2 ^ k <=? n else d <=? n * 2 ^ (- k).

(** The binary exponent of [n / d]: the [k] with
    [2 ^ k <= n / d < 2 ^ (k + 1)].  It is the difference of the bit
    lengths, or one less. *)
Definition binary_exponent (n d : Z) : Z :=
  let k0 := Z.log2 n - Z.log2 d in
  if at_least_power n d k0 then k0 else k0 - 1.

(** The binary64 number nearest to [n / d], as significand and exponent
    [(m, e)] of the value [m * 2 ^ e].  The significand has 53 bits; below
    the normal range the exponent stops at [-1074] and the significand
    gets shorter, down to zero. *)
Definition nearest_binary64 (n d : Z) : Z * Z :=
  let e := Z.max (binary_exponent n d - 52) (-1074) in
  let m := if 0 <=? e then round_half_even n (d * 2 ^ e)
           else round_half_even (n * 2 ^ (- e)) d in
  (m, e).

(** The rational [m * 2 ^ e]. *)
Definition dyadic (m e : Z) : Q :=
  if 0 <=? e then inject_Z (m * 2 ^ e)
  else (inject_Z m / inject_Z (2 ^ (- e)))%Q.

(** [a / b] on integers under [from __future__ import division]: the true
    quotient as a float.  CPython returns the binary64 number nearest to
    the exact quotient, ties to even, of whatever size the integers are;
    it raises [OverflowError] when that number would reach [2 ^ 1024] and
    lets a quotient too small for the format go to zero.  A float is kept
    as the rational it stands for. *)
Definition truediv (a b : Z) : result Q :=
  if b =? 0 then Raise ZeroDivisionError
  else
    let '(m, e) := nearest_binary64 (Z.abs a) (Z.abs b) in
    if (0 <=? e) && (2 ^ 1024 <=? m * 2 ^ e) then Raise OverflowError
    else Return (dyadic (Z.sgn a * Z.sgn b * m) e).

(** [math.ceil] of a float: the least integer not below it. *)
Definition ceil (x : Q) : Z := Qceiling x.

(** [assert c, msg]. *)
Definition assert (c : bool) (msg : option string) : result unit :=
  if c then Return tt else Raise (AssertionError msg).

(** [str] of an integer: decimal digits, with a leading minus sign for a
    negative number. *)
Definition str_int (z : Z) : string := NilZero.string_of_int (Z.to_int z).

(** What a [{}] field of [str.format] prints for an integer-or-None. *)
Definition str (v : option Z) : string :=
  match v with
  | Some z => str_int z
  | None => "None"
  end.

End Py.

Import Py.

Notation "x <- c ;; k" := (bind c (fun x => k))
  (at level 61, c at next level, right associativity).
Notation "c ;;; k" := (bind c (fun _ => k))
  (at level 61, right associativity).

(** ** Collaborators *)

(** [tf.estimator.ModeKeys], restricted to the two keys the module binds to
    [_TRAIN] and [_EVAL]. *)
Inductive ModeKeys : Type := TRAIN | EVAL.

(** What the two hooks do to the outside world. *)
Inductive event : Type :=
| tf_logging_info (msg : string)
| time_sleep (secs : Z).

(** ** The class [Manager] *)

Record Manager : Type := {
  train_eval_iterations : Z;
  _single_iteration_train_steps : option Z;
  _single_iteration_train_epochs : option Z;
  max_length : Z;
  batch_size : Z;
  use_tpu : bool;
  num_tpu_shards : Z
}.

(** [Manager.__init__].  The two keyword arguments have the defaults
    [use_tpu=False] and [num_tpu_shards=8] in the source. *)
Definition __init__
    (train_steps : option Z) (steps_between_evals : Z)
    (train_epochs : option Z) (epochs_between_evals : Z)
    (default_train_epochs batch_size max_length : Z)
    (use_tpu : bool) (num_tpu_shards : Z) : result Manager :=
  if truthy train_steps && truthy train_epochs then
    Raise (ValueError "Both train_steps or train_epochs were be defined.")
  else
    schedule <-
      (if truthy train_steps then
         total <- as_int train_steps ;;
         iterations <- floordiv total steps_between_evals ;;
         Return (iterations, Some steps_between_evals, None)
       else
         let train_epochs := or_else train_epochs default_train_epochs in
         iterations <- floordiv train_epochs epochs_between_evals ;;
         Return (iterations, None, Some epochs_between_evals)) ;;
    let '(iterations, steps, epochs) := schedule in
    let self :=
      {| train_eval_iterations := iterations;
         _single_iteration_train_steps := steps;
         _single_iteration_train_epochs := epochs;
         max_length := max_length;
         batch_size := batch_size;
         use_tpu := use_tpu;
         num_tpu_shards := num_tpu_shards |} in
    if use_tpu then
      per_step <- floordiv batch_size max_length ;;
      rest <- modulo per_step num_tpu_shards ;;
      assert (rest =? 0) None ;;;
      Return self
    else
      Return self.

Section Methods.

(** [dataset.NUM_EXAMPLES]: the number of examples of each split. *)
Variable NUM_EXAMPLES : ModeKeys -> Z.

(** [Manager.epochs_to_steps]. *)
Definition epochs_to_steps (self : Manager) (num_epochs : Z)
    (mode : ModeKeys) : result Z :=
  assert (use_tpu self)
    (Some "epochs_to_steps should only be reached when using TPU") ;;;
  let total_num_tokens :=
    NUM_EXAMPLES mode * max_length self * num_epochs in
  floordiv total_num_tokens (batch_size self).

(** The property [Manager.single_iteration_train_steps]. *)
Definition single_iteration_train_steps (self : Manager)
    : result (option Z) :=
  if truthy (_single_iteration_train_steps self) || negb (use_tpu self) then
    Return (_single_iteration_train_steps self)
  else
    num_epochs <- as_int (_single_iteration_train_epochs self) ;;
    steps <- epochs_to_steps self num_epochs TRAIN ;;
    Return (Some steps).

(** The property [Manager.single_iteration_eval_steps]. *)
Definition single_iteration_eval_steps (self : Manager)
    : result (option Z) :=
  if negb (use_tpu self) then
    Return None
  else
    steps <- epochs_to_steps self 1 EVAL ;;
    Return (Some steps).

(** The property [Manager.train_increment_str]. *)
Definition train_increment_str (self : Manager) : result string :=
  if truthy (_single_iteration_train_steps self) then
    Return (str (_single_iteration_train_steps self) ++ " steps.")%string
  else if negb (use_tpu self) then
    Return (str (_single_iteration_train_epochs self) ++ " epochs.")%string
  else
    steps <- single_iteration_train_steps self ;;
    Return ("~" ++ str (_single_iteration_train_epochs self)
                ++ " epochs. (" ++ str steps ++ " steps)")%string.

(** The property [Manager.repeat_dataset].  The conjunction of the source
    is evaluated left to right: the comparison is reached only when the
    epoch count is [None]. *)
Definition repeat_dataset (self : Manager) : result (option Z) :=
  more_than_one_pass <-
    (match _single_iteration_train_epochs self with
     | None =>
         steps <- as_int (_single_iteration_train_steps self) ;;
         Return (steps >? NUM_EXAMPLES TRAIN)
     | Some _ => Return false
     end) ;;
  if (more_than_one_pass : bool) then
    steps <- as_int (_single_iteration_train_steps self) ;;
    passes <- truediv steps (NUM_EXAMPLES TRAIN) ;;
    Return (Some (ceil passes))
  else
    Return (_single_iteration_train_epochs self).

End Methods.

(** [Manager._sleep_if_tpu], on the log of what has happened so far. *)
Definition _sleep_if_tpu (self : Manager) (world : list event) : list event :=
  if use_tpu self then
    world ++ [tf_logging_info "Sleeping to allow TPU queues to clear.";
              time_sleep 60]
  else
    world.

Definition post_train (self : Manager) (world : list event) : list event :=
  _sleep_if_tpu self world.

Definition post_eval (self : Manager) (world : list event) : list event :=
  _sleep_if_tpu self world.

(** ** A manager in use

    The run loop reads the properties and calls the methods of one manager
    over and over.  A call yields an outcome, the object as the call leaves
    it and the log of events.  No method of the class assigns to an
    attribute of [self], so the object that comes out is the one that went
    in. *)

Inductive value : Type :=
| VNone
| VInt (z : Z)
| VStr (s : string).

Definition of_optional (v : option Z) : value :=
  match v with
  | Some z => VInt z
  | None => VNone
  end.

Inductive operation : Type :=
| read_single_iteration_train_steps
| read_single_iteration_eval_steps
| read_train_increment_str
| read_repeat_dataset
| call_epochs_to_steps (num_epochs : Z) (mode : ModeKeys)
| call_sleep_if_tpu
| call_post_train
| call_post_eval.

Definition perform (NUM_EXAMPLES : ModeKeys -> Z) (op : operation)
    (self : Manager) (world : list event)
    : result value * Manager * list event :=
  match op with
  | read_single_iteration_train_steps =>
      (v <- single_iteration_train_steps NUM_EXAMPLES self ;;
       Return (of_optional v), self, world)
  | read_single_iteration_eval_steps =>
      (v <- single_iteration_eval_steps NUM_EXAMPLES self ;;
       Return (of_optional v), self, world)
  | read_train_increment_str =>
      (s <- train_increment_str NUM_EXAMPLES self ;; Return (VStr s),
       self, world)
  | read_repeat_dataset =>
      (v <- repeat_dataset NUM_EXAMPLES self ;; Return (of_optional v),
       self, world)
  | call_epochs_to_steps num_epochs mode =>
      (z <- epochs_to_steps NUM_EXAMPLES self num_epochs mode ;;
       Return (VInt z), self, world)
  | call_sleep_if_tpu => (Return VNone, self, _sleep_if_tpu self world)
  | call_post_train => (Return VNone, self, post_train self world)
  | call_post_eval => (Return VNone, self, post_eval self world)
  end.

(** The object and the log after a sequence of operations; an operation
    that raises leaves both as they were and the loop goes on. *)
Fixpoint lifetime (NUM_EXAMPLES : ModeKeys -> Z) (ops : list operation)
    (self : Manager) (world : list event) : Manager * list event :=
  match ops with
  | [] => (self, world)
  | op :: rest =>
      let '(_, self', world') := perform NUM_EXAMPLES op self world in
      lifetime NUM_EXAMPLES rest self' world'
  end.

(** ** Vocabulary of the specification *)

(** The basis of a schedule.  The constructor chooses it from the truth
    value of [train_steps]; the properties recover it from the truth value
    of the stored per-iteration step count. *)
Inductive Basis : Type := STEPS | EPOCHS.

Definition basis_chosen (train_steps : option Z) : Basis :=
  if truthy train_steps then STEPS else EPOCHS.

Definition basis_seen (self : Manager) : Basis :=
  if truthy (_single_iteration_train_steps self) then STEPS else EPOCHS.

(** The specification names two kinds of error.  [InvalidConfiguration] is
    what the two validations of the constructor raise: the [ValueError] of
    the basis check and the message-less [AssertionError] of the shard
    check.  [PreconditionViolation] is the [AssertionError] of
    [epochs_to_steps]. *)
Definition InvalidConfiguration (e : exn) : bool :=
  match e with
  | ValueError _ => true
  | AssertionError None => true
  | _ => false
  end.

Definition PreconditionViolation (e : exn) : bool :=
  match e with
  | AssertionError (Some _) => true
  | _ => false
  end.

(** The floor and the ceiling of a quotient of integers, taken in the
    rationals. *)
Definition floor_of_quotient (a b : Z) : Z :=
  Qfloor (inject_Z a / inject_Z b).

Definition ceiling_of_quotient (a b : Z) : Z :=
  Qceiling (inject_Z a / inject_Z b).

(** Exactly one of the two per-iteration counts is present. *)
Definition one_basis_only (self : Manager) : Prop :=
  (_single_iteration_train_steps self <> None
   /\ _single_iteration_train_epochs self = None)
  \/ (_single_iteration_train_steps self = None
      /\ _single_iteration_train_epochs self <> None).

(** ** Sample data *)

Module Sample.

(** A table of example counts: the training count is the one of the
    worked examples of the specification, the evaluation count is only an
    illustration. *)
Definition NUM_EXAMPLES (mode : ModeKeys) : Z :=
  match mode with
  | TRAIN => 100000
  | EVAL => 3000
  end.

Definition on_tpu_by_epochs : Manager :=
  {| train_eval_iterations := 10;
     _single_iteration_train_steps := None;
     _single_iteration_train_epochs := Some 1;
     max_length := 64;
     batch_size := 2048;
     use_tpu := true;
     num_tpu_shards := 8 |}.

Definition off_tpu_by_epochs : Manager :=
  {| train_eval_iterations := 10;
     _single_iteration_train_steps := None;
     _single_iteration_train_epochs := Some 1;
     max_length := 64;
     batch_size := 2048;
     use_tpu := false;
     num_tpu_shards := 8 |}.

Definition on_tpu_by_steps : Manager :=
  {| train_eval_iterations := 3;
     _single_iteration_train_steps := Some 300;
     _single_iteration_train_epochs := None;
     max_length := 64;
     batch_size := 2048;
     use_tpu := true;
     num_tpu_shards := 8 |}.

Definition long_iterations : Manager :=
  {| train_eval_iterations := 4;
     _single_iteration_train_steps := Some 250000;
     _single_iteration_train_epochs := None;
     max_length := 64;
     batch_size := 2048;
     use_tpu := false;
     num_tpu_shards := 8 |}.

(** A manager that the constructor accepts with a negative
    [max_length]. *)
Definition negative_length : Manager :=
  {| train_eval_iterations := 10;
     _single_iteration_train_steps := None;
     _single_iteration_train_epochs := Some 1;
     max_length := -64;
     batch_size := 2048;
     use_tpu := true;
     num_tpu_shards := 8 |}.

End Sample.

(** ** Managers at the edge of what the constructor accepts *)

Module Corner.

(** On TPU with a batch size of zero: [0 // 64 = 0] and [0 % 8 = 0], so the
    shard check passes. *)
Definition zero_batch_on_tpu : Manager :=
  {| train_eval_iterations := 10;
     _single_iteration_train_steps := None;
     _single_iteration_train_epochs := Some 1;
     max_length := 64;
     batch_size := 0;
     use_tpu := true;
     num_tpu_shards := 8 |}.

(** One iteration of [2 ^ 37 * 100000 + 1] steps. *)
Definition huge_iteration : Manager :=
  {| train_eval_iterations := 1;
     _single_iteration_train_steps := Some 13743895347200001;
     _single_iteration_train_epochs := None;
     max_length := 64;
     batch_size := 2048;
     use_tpu := false;
     num_tpu_shards := 8 |}.

(** One iteration of [2 ^ 53 + 1] steps. *)
Definition iteration_past_53_bits : Manager :=
  {| train_eval_iterations := 1;
     _single_iteration_train_steps := Some 9007199254740993;
     _single_iteration_train_epochs := None;
     max_length := 64;
     batch_size := 2048;
     use_tpu := false;
     num_tpu_shards := 8 |}.

(** A table whose training split has [2 ^ 53] examples, and an empty
    one. *)
Definition NUM_EXAMPLES_53_bits (mode : ModeKeys) : Z :=
  match mode with
  | TRAIN => 9007199254740992
  | EVAL => 3000
  end.

Definition NUM_EXAMPLES_empty (mode : ModeKeys) : Z := 0.

End Corner.

(** ** Reading the log of events *)

(** The seconds a log says were slept. *)
Fixpoint seconds_slept (world : list event) : Z :=
  match world with
  | [] => 0
  | time_sleep secs :: rest => secs + seconds_slept rest
  | tf_logging_info _ :: rest => seconds_slept rest
  end.

(** The operations that go through [_sleep_if_tpu]. *)
Definition is_hook (op : operation) : bool :=
  match op with
  | call_sleep_if_tpu | call_post_train | call_post_eval => true
  | _ => false
  end.

Definition hooks_called (ops : list operation) : nat :=
  List.length (filter is_hook ops).

(** What [n] passes through [_sleep_if_tpu] write on TPU. *)
Fixpoint pauses (n : nat) : list event :=
  match n with
  | O => []
  | S n' =>
      tf_logging_info "Sleeping to allow TPU queues to clear."
      :: time_sleep 60 :: pauses n'
  end.

(** ** The embedding on concrete inputs *)

(** Floor division and remainder follow the sign conventions of Python. *)
Example floordiv_modulo_signs :
  floordiv (-7) 2 = Return (-4) /\ floordiv 7 (-2) = Return (-4)
  /\ modulo (-7) 2 = Return 1 /\ modulo 7 (-2) = Return (-1)
  /\ floordiv 7 0 = Raise ZeroDivisionError
  /\ modulo 7 0 = Raise ZeroDivisionError.
Proof. repeat split. Qed.

(** The float quotient rounds, overflows and underflows as CPython's. *)
Example truediv_samples :
  (x <- truediv 7 2 ;; Return (ceil x)) = Return 4
  /\ (x <- truediv (-7) 2 ;; Return (ceil x)) = Return (-3)
  /\ (x <- truediv (2 ^ 53 + 1) (2 ^ 53) ;; Return (ceil x)) = Return 1
  /\ (x <- truediv 1 (2 ^ 1080) ;; Return (ceil x)) = Return 0
  /\ truediv (10 ^ 400) 100000 = Raise OverflowError
  /\ truediv 7 0 = Raise ZeroDivisionError.
Proof. repeat split; vm_compute; reflexivity. Qed.

Example str_int_samples :
  str_int 0 = "0"%string /\ str_int (-120) = "-120"%string
  /\ str_int 3125 = "3125"%string.
Proof. repeat split. Qed.

Example construct_by_steps_on_tpu :
  __init__ (Some 1000) 300 None 1 10 2048 64 true 8
  = Return Sample.on_tpu_by_steps.
Proof. reflexivity. Qed.

Example construct_by_default_epochs :
  __init__ None 300 (Some 0) 1 10 2048 64 false 8
  = Return Sample.off_tpu_by_epochs.
Proof. reflexivity. Qed.

Example eval_steps_on_tpu :
  single_iteration_eval_steps Sample.NUM_EXAMPLES Sample.on_tpu_by_epochs
  = Return (Some 93)
  /\ single_iteration_eval_steps Sample.NUM_EXAMPLES Sample.off_tpu_by_epochs
     = Return None.
Proof. split; reflexivity. Qed.

Example hooks_sleep_on_tpu_only :
  post_train Sample.on_tpu_by_epochs []
  = [tf_logging_info "Sleeping to allow TPU queues to clear."; time_sleep 60]
  /\ post_eval Sample.off_tpu_by_epochs [] = [].
Proof. split; reflexivity. Qed.

(** ** Arithmetic of quotients *)

Lemma floor_of_quotient_div (a b : Z) : floor_of_quotient a b = a / b.
Proof. unfold floor_of_quotient. symmetry. apply Zdiv_Qdiv. Qed.

Lemma ceiling_of_quotient_div (a b : Z) :
  ceiling_of_quotient a b = - ((- a) / b).
Proof.
  unfold ceiling_of_quotient, Qceiling. f_equal.
  rewrite Zdiv_Qdiv. apply Qfloor_comp.
  unfold Qdiv. rewrite inject_Z_opp. ring.
Qed.

Lemma ceiling_of_quotient_pos (a b : Z) :
  0 < b -> ceiling_of_quotient a b = (a + b - 1) / b.
Proof.
  intros Hb. rewrite ceiling_of_quotient_div.
  pose proof (Z.div_mod (- a) b ltac:(lia)) as Hq.
  pose proof (Z.mod_pos_bound (- a) b Hb) as Hr.
  apply (Z.div_unique_pos _ _ _ (b - 1 - (- a) mod b)); lia.
Qed.

(** The floor of a quotient is the integer just below it. *)
Lemma floor_of_quotient_bounds (a b : Z) :
  (inject_Z (floor_of_quotient a b) <= inject_Z a / inject_Z b
   /\ inject_Z a / inject_Z b < inject_Z (floor_of_quotient a b + 1))%Q.
Proof.
  unfold floor_of_quotient. split; [apply Qfloor_le | apply Qlt_floor].
Qed.

(** ** Running the Python fragment *)

Lemma floordiv_nonzero (a b : Z) : b <> 0 -> floordiv a b = Return (a / b).
Proof.
  intros Hb. unfold floordiv.
  destruct (Z.eqb_spec b 0) as [E | _]; [contradiction | reflexivity].
Qed.

Lemma floordiv_zero (a : Z) : floordiv a 0 = Raise ZeroDivisionError.
Proof. reflexivity. Qed.

Lemma floordiv_Return (a b q : Z) :
  floordiv a b = Return q -> b <> 0 /\ q = a / b.
Proof.
  unfold floordiv. destruct (Z.eqb_spec b 0) as [E | N]; [discriminate |].
  intros [= <-]. split; [assumption | reflexivity].
Qed.

Lemma modulo_Return (a b r : Z) :
  modulo a b = Return r -> b <> 0 /\ r = a mod b.
Proof.
  unfold modulo. destruct (Z.eqb_spec b 0) as [E | N]; [discriminate |].
  intros [= <-]. split; [assumption | reflexivity].
Qed.

Lemma truthy_Some (v : option Z) :
  truthy v = true -> exists z, v = Some z /\ z <> 0.
Proof.
  destruct v as [z |]; simpl; [| discriminate].
  destruct (Z.eqb_spec z 0); [discriminate |]. intros _. now exists z.
Qed.

Lemma truthy_Some_nonzero (z : Z) : z <> 0 -> truthy (Some z) = true.
Proof.
  intros Hz. simpl. destruct (Z.eqb_spec z 0); [contradiction | reflexivity].
Qed.

Lemma bind_Return {A B : Type} (c : result A) (k : A -> result B) (b : B) :
  bind c k = Return b -> exists a, c = Return a /\ k a = Return b.
Proof. destruct c as [a | e]; simpl; [eauto | discriminate]. Qed.

(** ** What a successful construction tells *)

Section Construction.

Variables (train_steps : option Z) (steps_between_evals : Z)
          (train_epochs : option Z) (epochs_between_evals : Z)
          (default_train_epochs batch_size' max_length' : Z)
          (use_tpu' : bool) (num_tpu_shards' : Z).

Variable self : Manager.

Hypothesis constructed :
  __init__ train_steps steps_between_evals train_epochs
    epochs_between_evals default_train_epochs batch_size' max_length'
    use_tpu' num_tpu_shards' = Return self.

Lemma constructed_inv :
  truthy train_steps && truthy train_epochs = false
  /\ max_length self = max_length'
  /\ batch_size self = batch_size'
  /\ use_tpu self = use_tpu'
  /\ num_tpu_shards self = num_tpu_shards'
  /\ (use_tpu' = true ->
      max_length' <> 0 /\ num_tpu_shards' <> 0
      /\ (batch_size' / max_length') mod num_tpu_shards' = 0)
  /\ ((exists total,
         train_steps = Some total /\ total <> 0
         /\ steps_between_evals <> 0
         /\ train_eval_iterations self = total / steps_between_evals
         /\ _single_iteration_train_steps self = Some steps_between_evals
         /\ _single_iteration_train_epochs self = None)
      \/ (truthy train_steps = false
          /\ epochs_between_evals <> 0
          /\ train_eval_iterations self
             = or_else train_epochs default_train_epochs
               / epochs_between_evals
          /\ _single_iteration_train_steps self = None
          /\ _single_iteration_train_epochs self
             = Some epochs_between_evals)).
Proof.
  revert constructed. unfold __init__.
  destruct (truthy train_steps && truthy train_epochs) eqn:Hboth;
    [discriminate |].
  intros H. apply bind_Return in H as ([[it st] ep] & Hsched & Hrest).
  assert (Hself : use_tpu' = true ->
            max_length' <> 0 /\ num_tpu_shards' <> 0
            /\ (batch_size' / max_length') mod num_tpu_shards' = 0).
  { intros ->. apply bind_Return in Hrest as (q & Hq & Hrest).
    apply floordiv_Return in Hq as [Hml ->].
    apply bind_Return in Hrest as (r & Hr & Hrest).
    apply modulo_Return in Hr as [Hsh ->].
    apply bind_Return in Hrest as ([] & Ha & _).
    unfold assert in Ha.
    destruct (Z.eqb_spec ((batch_size' / max_length') mod num_tpu_shards') 0);
      [auto | discriminate]. }
  assert (Hm : self = {| train_eval_iterations := it;
                         _single_iteration_train_steps := st;
                         _single_iteration_train_epochs := ep;
                         max_length := max_length';
                         batch_size := batch_size';
                         use_tpu := use_tpu';
                         num_tpu_shards := num_tpu_shards' |}).
  { destruct use_tpu'.
    - apply bind_Return in Hrest as (q & _ & Hrest).
      apply bind_Return in Hrest as (r & _ & Hrest).
      apply bind_Return in Hrest as (u & _ & Hrest).
      now injection Hrest as <-.
    - now injection Hrest as <-. }
  subst self. simpl. repeat (split; [easy |]).
  destruct (truthy train_steps) eqn:Hts.
  - left. apply truthy_Some in Hts as (total & -> & Htot).
    simpl in Hsched. apply bind_Return in Hsched as (q & Hq & Hret).
    apply floordiv_Return in Hq as [Hs ->].
    injection Hret as <- <- <-. exists total. easy.
  - right. apply bind_Return in Hsched as (q & Hq & Hret).
    apply floordiv_Return in Hq as [Hs ->].
    injection Hret as <- <- <-. easy.
Qed.

End Construction.

(** ** Epochs to steps *)

(** C1, as the code has it.  Under [use_tpu] and with a batch size that
    is not zero, [epochs_to_steps num_epochs mode] returns the floor of
    [NUM_EXAMPLES[mode] * max_length * num_epochs / batch_size]: the
    result lies at or below the quotient, and with a positive batch size
    less than one batch of tokens is dropped.  Under [use_tpu] with a zero
    batch size the call raises [ZeroDivisionError].  Without [use_tpu]
    every call fails on the assertion of the method, the precondition
    violation of the specification. *)
Theorem epochs_to_steps_floor
    (NUM_EXAMPLES : ModeKeys -> Z) (self : Manager) (num_epochs : Z)
    (mode : ModeKeys) :
  let total := NUM_EXAMPLES mode * max_length self * num_epochs in
  (use_tpu self = true -> batch_size self <> 0 ->
   epochs_to_steps NUM_EXAMPLES self num_epochs mode
   = Return (floor_of_quotient total (batch_size self))
   /\ (inject_Z (floor_of_quotient total (batch_size self))
       <= inject_Z total / inject_Z (batch_size self))%Q
   /\ (0 < batch_size self ->
       0 <= total - floor_of_quotient total (batch_size self)
                    * batch_size self < batch_size self))
  /\ (use_tpu self = true -> batch_size self = 0 ->
      epochs_to_steps NUM_EXAMPLES self num_epochs mode
      = Raise ZeroDivisionError)
  /\ (use_tpu self = false ->
      exists e,
        epochs_to_steps NUM_EXAMPLES self num_epochs mode = Raise e
        /\ e = AssertionError
                 (Some "epochs_to_steps should only be reached when using TPU")
        /\ PreconditionViolation e = true).
Proof.
  intros total. unfold epochs_to_steps. fold total.
  split; [| split].
  - intros Htpu Hb. rewrite Htpu. simpl.
    rewrite floordiv_nonzero by assumption.
    rewrite floor_of_quotient_div. split; [reflexivity |]. split.
    + rewrite <- floor_of_quotient_div. apply floor_of_quotient_bounds.
    + intros Hpos.
      pose proof (Z.div_mod total (batch_size self) Hb) as Hq.
      pose proof (Z.mod_pos_bound total (batch_size self) Hpos) as Hr. lia.
  - intros Htpu Hb. rewrite Htpu, Hb. reflexivity.
  - intros Htpu. rewrite Htpu. simpl. eexists. repeat split.
Qed.

(** ** Construction *)

(** C2.  After a successful construction [train_eval_iterations] is the
    floor of the total over the cadence in the chosen basis: of
    [train_steps] over [steps_between_evals] when [train_steps] is given
    and non-zero, otherwise of the epoch total over [epochs_between_evals],
    the epoch total being [train_epochs], or [default_train_epochs] when
    [train_epochs] is [None] or zero.  With 1000 steps and a cadence of 300
    there are 3 iterations. *)
Theorem train_eval_iterations_floor
    (train_steps : option Z) (steps_between_evals : Z)
    (train_epochs : option Z) (epochs_between_evals : Z)
    (default_train_epochs batch_size max_length : Z)
    (use_tpu : bool) (num_tpu_shards : Z) (self : Manager) :
  __init__ train_steps steps_between_evals train_epochs
    epochs_between_evals default_train_epochs batch_size max_length
    use_tpu num_tpu_shards = Return self ->
  (forall total, train_steps = Some total -> total <> 0 ->
     train_eval_iterations self = floor_of_quotient total steps_between_evals
     /\ train_eval_iterations self = total / steps_between_evals)
  /\ (train_steps = None \/ train_steps = Some 0 ->
      (forall total, train_epochs = Some total -> total <> 0 ->
         train_eval_iterations self
         = floor_of_quotient total epochs_between_evals
         /\ train_eval_iterations self = total / epochs_between_evals)
      /\ (train_epochs = None \/ train_epochs = Some 0 ->
          train_eval_iterations self
          = floor_of_quotient default_train_epochs epochs_between_evals
          /\ train_eval_iterations self
             = default_train_epochs / epochs_between_evals))
  /\ (train_steps = Some 1000 -> steps_between_evals = 300 ->
      train_eval_iterations self = 3).
Proof.
  intros Hc.
  destruct (constructed_inv _ _ _ _ _ _ _ _ _ _ Hc)
    as (_ & _ & _ & _ & _ & _ & Hbasis).
  destruct Hbasis as [(t & Hts & Ht & Hs & Hit & _) | (Hts & He & Hit & _)].
  - split; [| split].
    + intros total E Htot. rewrite Hts in E. injection E as <-.
      now rewrite floor_of_quotient_div.
    + intros [E | E]; rewrite Hts in E; [discriminate |].
      injection E as ->. contradiction.
    + intros E ->. rewrite Hts in E. injection E as ->. rewrite Hit.
      reflexivity.
  - split; [| split].
    + intros total -> Htot.
      rewrite (truthy_Some_nonzero _ Htot) in Hts. discriminate.
    + intros _. split.
      * intros total -> Htot. rewrite Hit, floor_of_quotient_div. simpl.
        destruct (Z.eqb_spec total 0); [contradiction | now split].
      * intros [-> | ->]; rewrite Hit, floor_of_quotient_div; now split.
    + intros ->. discriminate.
Qed.

(** C3.  When both [train_steps] and [train_epochs] are given and non-zero
    the constructor raises its [ValueError], an invalid configuration,
    whatever the other arguments are. *)
Theorem both_totals_rejected
    (steps epochs : Z) (steps_between_evals epochs_between_evals : Z)
    (default_train_epochs batch_size max_length : Z)
    (use_tpu : bool) (num_tpu_shards : Z) :
  steps <> 0 -> epochs <> 0 ->
  exists e,
    __init__ (Some steps) steps_between_evals (Some epochs)
      epochs_between_evals default_train_epochs batch_size max_length
      use_tpu num_tpu_shards = Raise e
    /\ e = ValueError "Both train_steps or train_epochs were be defined."
    /\ InvalidConfiguration e = true.
Proof.
  intros Hs He. unfold __init__.
  rewrite (truthy_Some_nonzero _ Hs), (truthy_Some_nonzero _ He). simpl.
  eexists. repeat split.
Qed.

(** Past the basis check and the division of the schedule, what is left
    of the constructor is the shard check on the manager just built. *)
Lemma __init___after_schedule
    (train_steps : option Z) (steps_between_evals : Z)
    (train_epochs : option Z) (epochs_between_evals : Z)
    (default_train_epochs batch_size max_length : Z)
    (use_tpu : bool) (num_tpu_shards : Z) :
  truthy train_steps && truthy train_epochs = false ->
  (if truthy train_steps then steps_between_evals else epochs_between_evals)
  <> 0 ->
  exists built,
    __init__ train_steps steps_between_evals train_epochs
      epochs_between_evals default_train_epochs batch_size max_length
      use_tpu num_tpu_shards
    = if use_tpu then
        per_step <- floordiv batch_size max_length ;;
        rest <- modulo per_step num_tpu_shards ;;
        assert (rest =? 0) None ;;;
        Return built
      else Return built.
Proof.
  intros Hboth Hcadence. unfold __init__. rewrite Hboth.
  destruct (truthy train_steps) eqn:Hts.
  - apply truthy_Some in Hts as (total & -> & _). simpl.
    rewrite (floordiv_nonzero _ _ Hcadence). simpl. eexists. reflexivity.
  - rewrite (floordiv_nonzero _ _ Hcadence). simpl. eexists. reflexivity.
Qed.

(** C4, as the code has it.  Take a construction that gets as far as the
    shard check: not both totals given, and a non-zero cadence in the basis
    chosen.  With [use_tpu] and non-zero [max_length] and
    [num_tpu_shards], it succeeds when
    [(batch_size // max_length) % num_tpu_shards == 0] and otherwise fails
    on the assertion, an invalid configuration; a batch size of 2048 with
    sequences of 64 passes with 8 shards and fails with 7.  Without
    [use_tpu] it succeeds whatever the three numbers are. *)
Theorem shard_check_when_reached
    (train_steps : option Z) (steps_between_evals : Z)
    (train_epochs : option Z) (epochs_between_evals : Z)
    (default_train_epochs batch_size max_length num_tpu_shards : Z) :
  truthy train_steps && truthy train_epochs = false ->
  (if truthy train_steps then steps_between_evals else epochs_between_evals)
  <> 0 ->
  let construct := __init__ train_steps steps_between_evals train_epochs
                     epochs_between_evals default_train_epochs in
  (max_length <> 0 -> num_tpu_shards <> 0 ->
   ((batch_size / max_length) mod num_tpu_shards = 0 ->
    exists self,
      construct batch_size max_length true num_tpu_shards = Return self)
   /\ ((batch_size / max_length) mod num_tpu_shards <> 0 ->
       exists e,
         construct batch_size max_length true num_tpu_shards = Raise e
         /\ e = AssertionError None
         /\ InvalidConfiguration e = true))
  /\ (exists self, construct 2048 64 true 8 = Return self)
  /\ construct 2048 64 true 7 = Raise (AssertionError None)
  /\ (exists self,
        construct batch_size max_length false num_tpu_shards = Return self).
Proof.
  intros Hboth Hcadence construct.
  assert (Hrun : forall b l u s, exists built,
             construct b l u s
             = if u then
                 per_step <- floordiv b l ;;
                 rest <- modulo per_step s ;;
                 assert (rest =? 0) None ;;;
                 Return built
               else Return built).
  { intros b l u s. now apply __init___after_schedule. }
  split; [| split; [| split]].
  - intros Hl Hs.
    destruct (Hrun batch_size max_length true num_tpu_shards) as [built ->].
    rewrite (floordiv_nonzero _ _ Hl). simpl.
    unfold modulo. destruct (Z.eqb_spec num_tpu_shards 0) as [| _];
      [contradiction |]. simpl.
    split; intros Hcond.
    + rewrite Hcond. simpl. now exists built.
    + destruct (Z.eqb_spec ((batch_size / max_length) mod num_tpu_shards) 0);
        [contradiction |].
      simpl. eexists. repeat split.
  - destruct (Hrun 2048 64 true 8) as [built ->]. now exists built.
  - destruct (Hrun 2048 64 true 7) as [built ->]. reflexivity.
  - destruct (Hrun batch_size max_length false num_tpu_shards) as [built ->].
    now exists built.
Qed.

(** ** The derived properties of a constructed manager *)

(** The basis chosen by the constructor shows in the stored counts. *)
Lemma constructed_basis
    (train_steps : option Z) (steps_between_evals : Z)
    (train_epochs : option Z) (epochs_between_evals : Z)
    (default_train_epochs batch_size' max_length' : Z)
    (use_tpu' : bool) (num_tpu_shards' : Z) (self : Manager) :
  __init__ train_steps steps_between_evals train_epochs
    epochs_between_evals default_train_epochs batch_size' max_length'
    use_tpu' num_tpu_shards' = Return self ->
  use_tpu self = use_tpu'
  /\ batch_size self = batch_size'
  /\ max_length self = max_length'
  /\ match basis_chosen train_steps with
     | STEPS =>
         steps_between_evals <> 0
         /\ _single_iteration_train_steps self = Some steps_between_evals
         /\ _single_iteration_train_epochs self = None
     | EPOCHS =>
         epochs_between_evals <> 0
         /\ _single_iteration_train_steps self = None
         /\ _single_iteration_train_epochs self = Some epochs_between_evals
     end.
Proof.
  intros Hc.
  destruct (constructed_inv _ _ _ _ _ _ _ _ _ _ Hc)
    as (_ & Hl & Hb & Hu & _ & _ & Hbasis).
  repeat (split; [assumption |]). unfold basis_chosen.
  destruct Hbasis as [(t & -> & Ht & Hs & _ & Hst & Hep)
                     | (-> & He & _ & Hst & Hep)].
  - rewrite (truthy_Some_nonzero _ Ht). auto.
  - auto.
Qed.

(** Opens a proof about a constructed manager: [Hu] relates the stored
    [use_tpu] to the argument, [Hbasis] tells which count is stored. *)
Ltac from_construction Hc Hu Hbasis :=
  destruct (constructed_basis _ _ _ _ _ _ _ _ _ _ Hc)
    as (Hu & _ & _ & Hbasis).

(** C5.  On a constructed manager [single_iteration_train_steps] is: the
    stored step count, which is [steps_between_evals], on a step basis,
    with or without [use_tpu]; [None] on an epoch basis without [use_tpu];
    and on an epoch basis with [use_tpu] what [epochs_to_steps] gives for
    the stored epoch count in [TRAIN] mode. *)
Theorem single_iteration_train_steps_cases
    (NUM_EXAMPLES : ModeKeys -> Z)
    (train_steps : option Z) (steps_between_evals : Z)
    (train_epochs : option Z) (epochs_between_evals : Z)
    (default_train_epochs batch_size max_length : Z)
    (use_tpu : bool) (num_tpu_shards : Z) (self : Manager) :
  __init__ train_steps steps_between_evals train_epochs
    epochs_between_evals default_train_epochs batch_size max_length
    use_tpu num_tpu_shards = Return self ->
  (basis_chosen train_steps = STEPS ->
   _single_iteration_train_steps self = Some steps_between_evals
   /\ single_iteration_train_steps NUM_EXAMPLES self
      = Return (Some steps_between_evals))
  /\ (basis_chosen train_steps = EPOCHS -> use_tpu = false ->
      single_iteration_train_steps NUM_EXAMPLES self = Return None)
  /\ (basis_chosen train_steps = EPOCHS -> use_tpu = true ->
      _single_iteration_train_epochs self = Some epochs_between_evals
      /\ single_iteration_train_steps NUM_EXAMPLES self
         = (steps <- epochs_to_steps NUM_EXAMPLES self
                       epochs_between_evals TRAIN ;;
            Return (Some steps))).
Proof.
  intros Hc. from_construction Hc Hu Hbasis.
  unfold single_iteration_train_steps. rewrite Hu.
  split; [| split].
  - intros HB. rewrite HB in Hbasis. destruct Hbasis as (Hs & -> & _).
    rewrite (truthy_Some_nonzero _ Hs). now split.
  - intros HB ->. rewrite HB in Hbasis. destruct Hbasis as (_ & -> & _).
    reflexivity.
  - intros HB ->. rewrite HB in Hbasis. destruct Hbasis as (_ & -> & ->).
    now split.
Qed.

(** ** The float quotient *)

Lemma round_half_even_exact (p q : Z) :
  0 < q -> p mod q = 0 -> round_half_even p q = p / q.
Proof.
  intros Hq Hr. unfold round_half_even. rewrite Hr. simpl.
  destruct (Z.ltb_spec 0 q); [reflexivity | lia].
Qed.

Lemma round_half_even_cases (p q : Z) :
  0 < q ->
  (2 * (p mod q) <= q /\ round_half_even p q = p / q)
  \/ (q <= 2 * (p mod q) /\ round_half_even p q = p / q + 1).
Proof.
  intros Hq. unfold round_half_even.
  destruct (Z.ltb_spec (2 * (p mod q)) q) as [Hlt | Hge]; [left; lia |].
  destruct (Z.ltb_spec q (2 * (p mod q))) as [Hgt | Hle]; [right; lia |].
  destruct (Z.even (p / q)); [left | right]; lia.
Qed.

(** Rounding a quotient scaled by [2 ^ s] stays strictly between the
    scaled integers around the quotient, once [2 ^ (s + 1)] exceeds the
    divisor. *)
Lemma round_half_even_between (n d s : Z) :
  0 < d -> 0 <= s -> d < 2 ^ (s + 1) -> 0 <= n ->
  let m := round_half_even (n * 2 ^ s) d in
  (n mod d = 0 -> m = n / d * 2 ^ s)
  /\ (n mod d <> 0 -> n / d * 2 ^ s < m < (n / d + 1) * 2 ^ s).
Proof.
  intros Hd Hs Hsmall Hn m.
  pose proof (Z.div_mod n d ltac:(lia)) as Hq.
  pose proof (Z.mod_pos_bound n d Hd) as Hr.
  assert (Hpow : 0 < 2 ^ s) by (apply Z.pow_pos_nonneg; lia).
  assert (Hpow1 : 2 ^ (s + 1) = 2 * 2 ^ s)
    by (rewrite Z.pow_add_r by lia; lia).
  set (q := n / d) in *. set (r := n mod d) in *.
  set (P := n * 2 ^ s) in *.
  pose proof (Z.div_mod P d ltac:(lia)) as HP.
  pose proof (Z.mod_pos_bound P d Hd) as Ht.
  split.
  - intros Hz. subst m.
    assert (HPd : P = q * 2 ^ s * d) by (unfold P; nia).
    rewrite round_half_even_exact; [| assumption |].
    + rewrite HPd. now rewrite Z.div_mul by lia.
    + rewrite HPd. now rewrite Z.mod_mul by lia.
  - intros Hnz.
    assert (Hlow : q * 2 ^ s <= P / d).
    { apply Z.div_le_lower_bound; [assumption |]. unfold P. nia. }
    assert (Hup : P / d < (q + 1) * 2 ^ s).
    { apply Z.div_lt_upper_bound; [assumption |]. unfold P. nia. }
    destruct (round_half_even_cases P d Hd) as [[Hhalf E] | [Hhalf E]];
      fold m in E; rewrite E.
    + split; [| lia].
      destruct (Z.eq_dec (P / d) (q * 2 ^ s)) as [Heq | Hne]; [| lia].
      exfalso. rewrite Heq in HP.
      assert (Hrest : P mod d = r * 2 ^ s) by (unfold P in *; nia).
      rewrite Hrest in Hhalf. nia.
    + split; [lia |].
      destruct (Z.eq_dec (P / d + 1) ((q + 1) * 2 ^ s)) as [Heq | Hne];
        [| lia].
      exfalso.
      assert (Hf : P / d = (q + 1) * 2 ^ s - 1) by lia.
      rewrite Hf in HP.
      assert (Hrest : P mod d = d - (d - r) * 2 ^ s) by (unfold P in *; nia).
      rewrite Hrest in Hhalf. nia.
Qed.

(** The exponent of a quotient of two integers below [2 ^ 53]: it puts
    the scaled quotient at or above [2 ^ 52] with a scale that is a whole
    power of two. *)
Lemma binary_exponent_small (n d : Z) :
  0 < n < 2 ^ 53 -> 0 < d < 2 ^ 53 ->
  -53 <= binary_exponent n d <= 52
  /\ d * 2 ^ 52 <= n * 2 ^ (52 - binary_exponent n d).
Proof.
  intros [Hn Hn53] [Hd Hd53].
  pose proof (Z.log2_spec n Hn) as [Hln _].
  pose proof (Z.log2_spec d Hd) as [_ Hld].
  pose proof (Z.log2_nonneg n) as Hln0.
  pose proof (Z.log2_nonneg d) as Hld0.
  assert (Hln52 : Z.log2 n < 53) by (apply Z.log2_lt_pow2; lia).
  assert (Hld52 : Z.log2 d < 53) by (apply Z.log2_lt_pow2; lia).
  unfold binary_exponent, at_least_power.
  set (ln := Z.log2 n) in *. set (ld := Z.log2 d) in *.
  assert (Hborrow : d * 2 ^ 52 <= n * 2 ^ (52 - (ln - ld - 1))).
  { replace (52 - (ln - ld - 1)) with (53 - ln + ld) by lia.
    apply Z.le_trans with (2 ^ Z.succ ld * 2 ^ 52).
    - apply Z.mul_le_mono_nonneg_r; [apply Z.pow_nonneg |]; lia.
    - apply Z.le_trans with (2 ^ ln * 2 ^ (53 - ln + ld)).
      + rewrite <- !Z.pow_add_r by lia.
        apply Z.pow_le_mono_r; lia.
      + apply Z.mul_le_mono_nonneg_r; [apply Z.pow_nonneg |]; lia. }
  destruct (Z.leb_spec 0 (ln - ld)) as [Hk | Hk].
  - destruct (Z.leb_spec (d * 2 ^ (ln - ld)) n) as [Hge | Hlt].
    + split; [lia |].
      replace (2 ^ 52) with (2 ^ (ln - ld) * 2 ^ (52 - (ln - ld)))
        by (rewrite <- Z.pow_add_r by lia; f_equal; lia).
      rewrite Z.mul_assoc.
      apply Z.mul_le_mono_nonneg_r; [apply Z.pow_nonneg; lia | assumption].
    + split; [lia | assumption].
  - destruct (Z.leb_spec d (n * 2 ^ (- (ln - ld)))) as [Hge | Hlt].
    + split; [lia |].
      replace (52 - (ln - ld)) with (- (ln - ld) + 52) by lia.
      rewrite Z.pow_add_r by lia. rewrite Z.mul_assoc.
      apply Z.mul_le_mono_nonneg_r; [apply Z.pow_nonneg; lia | assumption].
    + split; [lia | assumption].
Qed.

Lemma nearest_binary64_small (n d : Z) :
  0 < n < 2 ^ 53 -> 0 < d < 2 ^ 53 ->
  exists m s,
    nearest_binary64 n d = (m, - s)
    /\ 0 <= s
    /\ (n mod d = 0 -> m = n / d * 2 ^ s)
    /\ (n mod d <> 0 -> n / d * 2 ^ s < m < (n / d + 1) * 2 ^ s).
Proof.
  intros Hn Hd.
  destruct (binary_exponent_small n d Hn Hd) as [Hk Hscaled].
  unfold nearest_binary64.
  set (k := binary_exponent n d) in *.
  replace (Z.max (k - 52) (-1074)) with (- (52 - k)) by lia.
  set (s := 52 - k) in *.
  assert (Hs : 0 <= s) by (unfold s; lia).
  assert (Hpow : 0 < 2 ^ s) by (apply Z.pow_pos_nonneg; lia).
  assert (Hsmall : d < 2 ^ (s + 1)).
  { rewrite Z.pow_add_r by lia. change (2 ^ 1) with 2.
    change (2 ^ 53) with (2 ^ 52 * 2) in Hn.
    assert (H52 : 0 < 2 ^ 52) by reflexivity. nia. }
  pose proof (round_half_even_between n d s ltac:(lia) Hs Hsmall ltac:(lia))
    as Hround. cbv zeta in Hround.
  exists (round_half_even (n * 2 ^ s) d), s.
  split; [| split; [assumption | exact Hround]].
  f_equal. destruct (Z.leb_spec 0 (- s)) as [Hzero | Hneg].
  - assert (s = 0) as -> by lia. simpl. now rewrite !Z.mul_1_r.
  - now rewrite Z.opp_involutive.
Qed.

Lemma dyadic_ceiling (m s : Z) :
  0 <= s -> Qceiling (dyadic m (- s)) = - ((- m) / 2 ^ s).
Proof.
  intros Hs. unfold dyadic. destruct (Z.leb_spec 0 (- s)) as [Hzero | Hneg].
  - assert (s = 0) as -> by lia. simpl. rewrite Qceiling_Z, Z.mul_1_r.
    rewrite Z.div_1_r. lia.
  - rewrite Z.opp_involutive. apply ceiling_of_quotient_div.
Qed.

(** What rounding to binary64 keeps of a quotient of small integers: its
    floor and its ceiling. *)
Lemma scaled_rounding_keeps_floor_and_ceiling (n d m s : Z) :
  0 < d -> 0 <= n -> 0 <= s ->
  (n mod d = 0 -> m = n / d * 2 ^ s) ->
  (n mod d <> 0 -> n / d * 2 ^ s < m < (n / d + 1) * 2 ^ s) ->
  m / 2 ^ s = n / d /\ (- m) / 2 ^ s = (- n) / d.
Proof.
  intros Hd Hn Hs Hexact Hbetween.
  assert (Hpow : 0 < 2 ^ s) by (apply Z.pow_pos_nonneg; lia).
  destruct (Z.eq_dec (n mod d) 0) as [Hz | Hnz].
  - rewrite (Hexact Hz). rewrite Z.div_mul by lia.
    rewrite <- Z.mul_opp_l, Z.div_mul by lia.
    rewrite (Z.div_opp_l_z n d) by lia. now split.
  - specialize (Hbetween Hnz). split.
    + symmetry. apply (Z.div_unique_pos _ _ _ (m - n / d * 2 ^ s)); nia.
    + rewrite (Z.div_opp_l_nz n d) by lia. symmetry.
      apply (Z.div_unique_pos _ _ _ ((n / d + 1) * 2 ^ s - m)); nia.
Qed.

(** The float quotient of two non-zero integers of magnitude below
    [2 ^ 53] exists and has the ceiling of the exact quotient. *)
Lemma truediv_small (a b : Z) :
  a <> 0 -> b <> 0 -> Z.abs a < 2 ^ 53 -> Z.abs b < 2 ^ 53 ->
  exists x,
    truediv a b = Return x /\ ceil x = ceiling_of_quotient a b.
Proof.
  intros Ha Hb Ha53 Hb53. unfold truediv.
  destruct (Z.eqb_spec b 0) as [| _]; [contradiction |].
  destruct (nearest_binary64_small (Z.abs a) (Z.abs b) ltac:(lia) ltac:(lia))
    as (m & s & -> & Hs & Hexact & Hbetween).
  destruct (scaled_rounding_keeps_floor_and_ceiling (Z.abs a) (Z.abs b) m s
              ltac:(lia) ltac:(lia) Hs Hexact Hbetween) as [Hfloor Hceil].
  assert (Hpow : 0 < 2 ^ s) by (apply Z.pow_pos_nonneg; lia).
  assert (Hfits : (0 <=? - s) && (2 ^ 1024 <=? m * 2 ^ (- s)) = false).
  { destruct (Z.leb_spec 0 (- s)) as [Hzero | Hneg]; [| reflexivity].
    assert (s = 0) as -> by lia. change (- 0) with 0.
    rewrite Z.pow_0_r, Z.mul_1_r in *.
    apply andb_false_iff. right. apply Z.leb_gt.
    assert (Hm : m <= Z.abs a + 1).
    { pose proof (Z.div_le_upper_bound (Z.abs a) (Z.abs b) (Z.abs a)
                    ltac:(lia) ltac:(nia)) as Hq.
      destruct (Z.eq_dec (Z.abs a mod Z.abs b) 0) as [Hz | Hnz].
      - rewrite (Hexact Hz). lia.
      - specialize (Hbetween Hnz). lia. }
    apply Z.le_lt_trans with (2 ^ 53); [lia |].
    apply Z.pow_lt_mono_r; lia. }
  rewrite Hfits. eexists. split; [reflexivity |].
  unfold ceil. rewrite dyadic_ceiling by assumption.
  rewrite ceiling_of_quotient_div. f_equal.
  assert (Hflip : (- a) / b = a / (- b)).
  { rewrite <- (Z.div_opp_opp a (- b)) by lia. now rewrite Z.opp_involutive. }
  destruct (Z.lt_trichotomy a 0) as [Hna | [Hza | Hpa]]; [| contradiction |];
    destruct (Z.lt_trichotomy b 0) as [Hnb | [Hzb | Hpb]];
    try contradiction.
  - rewrite (Z.sgn_neg a Hna), (Z.sgn_neg b Hnb).
    rewrite (Z.abs_neq a), (Z.abs_neq b) in Hceil by lia.
    rewrite Z.opp_involutive in Hceil.
    replace (-1 * -1 * m) with m by lia. now rewrite Hflip.
  - rewrite (Z.sgn_neg a Hna), (Z.sgn_pos b Hpb).
    rewrite (Z.abs_neq a), (Z.abs_eq b) in Hfloor by lia.
    replace (- (-1 * 1 * m)) with m by lia. exact Hfloor.
  - rewrite (Z.sgn_pos a Hpa), (Z.sgn_neg b Hnb).
    rewrite (Z.abs_eq a), (Z.abs_neq b) in Hfloor by lia.
    replace (- (1 * -1 * m)) with m by lia. now rewrite Hflip.
  - rewrite (Z.sgn_pos a Hpa), (Z.sgn_pos b Hpb).
    rewrite (Z.abs_eq a), (Z.abs_eq b) in Hceil by lia.
    replace (1 * 1 * m) with m by lia. exact Hceil.
Qed.


(** C6, as the code has it.  On a constructed manager [repeat_dataset] is:
    the stored epoch count on an epoch basis; on a step basis [None], the
    marker for no repetition, when the per-iteration steps do not exceed
    [NUM_EXAMPLES[TRAIN]], and otherwise the ceiling of their quotient by
    [NUM_EXAMPLES[TRAIN]], for a count that is not zero and two numbers of
    magnitude below [2 ^ 53], where the float quotient of the source has
    the ceiling of the exact one; 250000 steps over 100000 examples give
    3. *)
Theorem repeat_dataset_cases
    (NUM_EXAMPLES : ModeKeys -> Z)
    (train_steps : option Z) (steps_between_evals : Z)
    (train_epochs : option Z) (epochs_between_evals : Z)
    (default_train_epochs batch_size max_length : Z)
    (use_tpu : bool) (num_tpu_shards : Z) (self : Manager) :
  __init__ train_steps steps_between_evals train_epochs
    epochs_between_evals default_train_epochs batch_size max_length
    use_tpu num_tpu_shards = Return self ->
  (basis_chosen train_steps = EPOCHS ->
   _single_iteration_train_epochs self = Some epochs_between_evals
   /\ repeat_dataset NUM_EXAMPLES self = Return (Some epochs_between_evals))
  /\ (basis_chosen train_steps = STEPS ->
      _single_iteration_train_steps self = Some steps_between_evals
      /\ (steps_between_evals <= NUM_EXAMPLES TRAIN ->
          repeat_dataset NUM_EXAMPLES self = Return None)
      /\ (steps_between_evals > NUM_EXAMPLES TRAIN ->
          NUM_EXAMPLES TRAIN <> 0 ->
          Z.abs steps_between_evals < 2 ^ 53 ->
          Z.abs (NUM_EXAMPLES TRAIN) < 2 ^ 53 ->
          repeat_dataset NUM_EXAMPLES self
          = Return (Some (ceiling_of_quotient steps_between_evals
                            (NUM_EXAMPLES TRAIN))))
      /\ (steps_between_evals = 250000 -> NUM_EXAMPLES TRAIN = 100000 ->
          repeat_dataset NUM_EXAMPLES self = Return (Some 3))).
Proof.
  intros Hc. from_construction Hc Hu Hbasis.
  unfold repeat_dataset. split.
  - intros HB. rewrite HB in Hbasis. destruct Hbasis as (_ & _ & ->).
    now split.
  - intros HB. rewrite HB in Hbasis. destruct Hbasis as (Hnz & -> & ->).
    cbn [as_int bind]. split; [reflexivity |]. split; [| split].
    + intros Hle.
      destruct (Z.gtb_spec steps_between_evals (NUM_EXAMPLES TRAIN));
        [lia | reflexivity].
    + intros Hgt Hn Hsteps Hcount.
      destruct (Z.gtb_spec steps_between_evals (NUM_EXAMPLES TRAIN));
        [| lia].
      destruct (truediv_small steps_between_evals (NUM_EXAMPLES TRAIN)
                  Hnz Hn Hsteps Hcount) as (x & -> & <-).
      reflexivity.
    + intros -> ->. reflexivity.
Qed.

(** ** Shapes of the progress labels *)

Lemma string_append_assoc (s t u : string) :
  ((s ++ t) ++ u = s ++ (t ++ u))%string.
Proof. induction s as [| c s IH]; simpl; [reflexivity | now rewrite IH]. Qed.

Lemma string_append_length (s t : string) :
  String.length (s ++ t) = (String.length s + String.length t)%nat.
Proof. induction s as [| c s IH]; simpl; [reflexivity | now rewrite IH]. Qed.

(** Two strings that are equal and end in tails of one length end in the
    same tail. *)
Lemma same_length_tail (s t u v : string) :
  String.length u = String.length v ->
  (s ++ u = t ++ v)%string -> u = v.
Proof.
  intros Hlen. revert t.
  induction s as [| c s IH]; intros [| d t] H; simpl in H.
  - assumption.
  - apply (f_equal String.length) in H. simpl in H.
    rewrite string_append_length in H. lia.
  - apply (f_equal String.length) in H. simpl in H.
    rewrite string_append_length in H. lia.
  - injection H as _ H. now apply (IH t).
Qed.

(** The decimal form of an integer starts with a digit or a minus sign. *)
Lemma str_int_first (z : Z) :
  exists c rest, str_int z = String c rest /\ c <> "~"%char.
Proof.
  assert (Hu : forall d, exists c rest,
             NilZero.string_of_uint d = String c rest /\ c <> "~"%char).
  { intros d. destruct d; simpl; eexists; eexists;
      (split; [reflexivity | discriminate]). }
  unfold str_int, NilZero.string_of_int.
  destruct (Z.to_int z) as [d | d].
  - apply Hu.
  - eexists; eexists; (split; [reflexivity | discriminate]).
Qed.

Lemma steps_label_is_not_epochs_label (n1 n2 : Z) :
  (str_int n1 ++ " steps." <> str_int n2 ++ " epochs.")%string.
Proof.
  intros H.
  change (str_int n1 ++ " " ++ "steps." = str_int n2 ++ " e" ++ "pochs.")%string
    in H.
  rewrite <- !string_append_assoc in H.
  apply same_length_tail in H; [discriminate | reflexivity].
Qed.

Lemma plain_label_is_not_converted_label (n : Z) (unit_name rest : string) :
  (str_int n ++ unit_name <> "~" ++ rest)%string.
Proof.
  destruct (str_int_first n) as (c & tail & -> & Hc). simpl.
  intros [= E _]. contradiction.
Qed.


(** ** The per-iteration counts over the life of a manager *)

Lemma perform_keeps_self
    (NUM_EXAMPLES : ModeKeys -> Z) (op : operation) (self : Manager)
    (world : list event) :
  snd (fst (perform NUM_EXAMPLES op self world)) = self.
Proof. destruct op; reflexivity. Qed.

Lemma lifetime_keeps_self
    (NUM_EXAMPLES : ModeKeys -> Z) (ops : list operation) (self : Manager)
    (world : list event) :
  fst (lifetime NUM_EXAMPLES ops self world) = self.
Proof.
  revert self world. induction ops as [| op ops IH]; intros self world.
  - reflexivity.
  - simpl. pose proof (perform_keeps_self NUM_EXAMPLES op self world) as Hk.
    destruct (perform NUM_EXAMPLES op self world) as [[outcome self'] world'].
    simpl in Hk. subst self'. apply IH.
Qed.

(** C8.  A constructed manager holds exactly one of the two per-iteration
    counts, the other being [None]; and whatever properties are read and
    methods are called afterwards, in any order and number, the manager
    stays as constructed, so this goes on holding. *)
Theorem one_basis_for_life
    (NUM_EXAMPLES : ModeKeys -> Z)
    (train_steps : option Z) (steps_between_evals : Z)
    (train_epochs : option Z) (epochs_between_evals : Z)
    (default_train_epochs batch_size max_length : Z)
    (use_tpu : bool) (num_tpu_shards : Z) (self : Manager) :
  __init__ train_steps steps_between_evals train_epochs
    epochs_between_evals default_train_epochs batch_size max_length
    use_tpu num_tpu_shards = Return self ->
  one_basis_only self
  /\ forall (ops : list operation) (world : list event),
       let self' := fst (lifetime NUM_EXAMPLES ops self world) in
       _single_iteration_train_steps self'
       = _single_iteration_train_steps self
       /\ _single_iteration_train_epochs self'
          = _single_iteration_train_epochs self
       /\ one_basis_only self'.
Proof.
  intros Hc.
  assert (Hone : one_basis_only self).
  { from_construction Hc Hu Hbasis.
    unfold one_basis_only.
    destruct (basis_chosen train_steps);
      destruct Hbasis as (_ & -> & ->); [left | right];
      split; (reflexivity || discriminate). }
  split; [assumption |].
  intros ops world self'. subst self'. rewrite lifetime_keeps_self.
  repeat split; assumption.
Qed.

(** ** Monotonicity of the conversion *)

(** C9, as the code has it.  Under [use_tpu], with a positive batch size
    and a token count per epoch [NUM_EXAMPLES[mode] * max_length] that is
    not negative, [epochs_to_steps] returns for every epoch count and does
    not decrease when the epoch count grows.  With 100000 examples,
    sequences of 64 and batches of 2048 one epoch is 3125 steps. *)
Theorem epochs_to_steps_monotone
    (NUM_EXAMPLES : ModeKeys -> Z) (self : Manager) (mode : ModeKeys) :
  use_tpu self = true ->
  0 < batch_size self ->
  (0 <= NUM_EXAMPLES mode * max_length self ->
   forall num_epochs1 num_epochs2 : Z,
     num_epochs1 <= num_epochs2 ->
     exists steps1 steps2,
       epochs_to_steps NUM_EXAMPLES self num_epochs1 mode = Return steps1
       /\ epochs_to_steps NUM_EXAMPLES self num_epochs2 mode = Return steps2
       /\ steps1 <= steps2)
  /\ (NUM_EXAMPLES mode = 100000 -> max_length self = 64 ->
      batch_size self = 2048 ->
      epochs_to_steps NUM_EXAMPLES self 1 mode = Return 3125).
Proof.
  intros Htpu Hb. unfold epochs_to_steps. rewrite Htpu. simpl. split.
  - intros Htokens n1 n2 Hle.
    rewrite !floordiv_nonzero by lia.
    eexists; eexists. split; [reflexivity |]. split; [reflexivity |].
    apply Z.div_le_mono; [assumption |].
    apply Z.mul_le_mono_nonneg_l; assumption.
  - intros -> -> ->. reflexivity.
Qed.

(** ** Zero cadence *)

(** C10, as the code has it.  Behind the basis check a zero cadence in the
    basis chosen makes the constructor raise [ZeroDivisionError], which is
    not an invalid configuration: [steps_between_evals = 0] when
    [train_steps] is given and non-zero and [train_epochs] is not, and
    [epochs_between_evals = 0] when [train_steps] is [None] or zero.  Hence
    a constructed manager stores a non-zero count for its basis, and the
    truth test of the properties on the stored step count finds the basis
    the constructor chose. *)
Theorem zero_cadence_after_basis_check
    (train_steps : option Z) (steps_between_evals : Z)
    (train_epochs : option Z) (epochs_between_evals : Z)
    (default_train_epochs batch_size max_length : Z)
    (use_tpu : bool) (num_tpu_shards : Z) :
  let construct := __init__ train_steps steps_between_evals train_epochs
                     epochs_between_evals default_train_epochs batch_size
                     max_length use_tpu num_tpu_shards in
  (basis_chosen train_steps = STEPS -> truthy train_epochs = false ->
   steps_between_evals = 0 -> construct = Raise ZeroDivisionError)
  /\ (basis_chosen train_steps = EPOCHS ->
      epochs_between_evals = 0 -> construct = Raise ZeroDivisionError)
  /\ InvalidConfiguration ZeroDivisionError = false
  /\ (forall self, construct = Return self ->
        match basis_chosen train_steps with
        | STEPS =>
            exists n, _single_iteration_train_steps self = Some n /\ n <> 0
        | EPOCHS =>
            exists n, _single_iteration_train_epochs self = Some n /\ n <> 0
        end
        /\ basis_seen self = basis_chosen train_steps).
Proof.
  intros construct. subst construct. unfold basis_chosen.
  split; [| split; [| split]].
  - unfold __init__. destruct (truthy train_steps) eqn:Hts; [| discriminate].
    intros _ -> ->. apply truthy_Some in Hts as (total & -> & _).
    reflexivity.
  - unfold __init__. destruct (truthy train_steps) eqn:Hts; [discriminate |].
    intros _ ->. reflexivity.
  - reflexivity.
  - intros self Hc. from_construction Hc Hu Hbasis.
    unfold basis_chosen in Hbasis. unfold basis_seen.
    destruct (truthy train_steps); destruct Hbasis as (Hnz & Hst & Hep).
    + rewrite Hst, (truthy_Some_nonzero _ Hnz). split; [eauto | reflexivity].
    + rewrite Hst. split; [eauto | reflexivity].
Qed.

(** ** Where the claims as first stated fail *)

(** The shard check is not the first thing that can fail.  With 10 steps
    and a cadence of 0 under [use_tpu], a batch size of 2048, sequences of
    64 and 7 shards, the shard condition is false, yet the constructor
    raises [ZeroDivisionError], which is not an invalid configuration: the
    division of line 52 comes before the assertion of line 67. *)
Lemma shard_check_preceded_by_division :
  __init__ (Some 10) 0 None 1 10 2048 64 true 7 = Raise ZeroDivisionError
  /\ ~ ((2048 / 64) mod 7 = 0
        \/ exists e,
             __init__ (Some 10) 0 None 1 10 2048 64 true 7 = Raise e
             /\ InvalidConfiguration e = true).
Proof.
  split; [reflexivity |].
  intros [Hcond | (e & He & Hkind)].
  - vm_compute in Hcond. discriminate.
  - vm_compute in He. injection He as <-. discriminate.
Qed.

(** The constructor accepts a negative [max_length] under [use_tpu]
    ([2048 // -64 = -32] and [-32 % 8 = 0]).  On that manager, with a
    positive batch size, one epoch converts to -3125 steps and two epochs
    to -6250: more epochs, fewer steps. *)
Lemma epochs_to_steps_decreases_for_negative_length :
  __init__ None 1 None 1 10 2048 (-64) true 8 = Return Sample.negative_length
  /\ use_tpu Sample.negative_length = true
  /\ 0 < batch_size Sample.negative_length
  /\ epochs_to_steps Sample.NUM_EXAMPLES Sample.negative_length 1 TRAIN
     = Return (-3125)
  /\ epochs_to_steps Sample.NUM_EXAMPLES Sample.negative_length 2 TRAIN
     = Return (-6250)
  /\ ~ (1 <= 2 ->
        forall steps1 steps2,
          epochs_to_steps Sample.NUM_EXAMPLES Sample.negative_length 1 TRAIN
          = Return steps1 ->
          epochs_to_steps Sample.NUM_EXAMPLES Sample.negative_length 2 TRAIN
          = Return steps2 ->
          steps1 <= steps2).
Proof.
  repeat (split; [reflexivity |]).
  intros H. specialize (H ltac:(lia) (-3125) (-6250) eq_refl eq_refl). lia.
Qed.

(** A zero cadence does not always surface as a division by zero.  With
    [train_steps = 10], [steps_between_evals = 0] and [train_epochs = 5]
    the step total is given and non-zero and its cadence is zero, but the
    constructor stops at the basis check of line 47 and raises the
    [ValueError], an invalid configuration. *)
Lemma zero_cadence_behind_both_totals :
  basis_chosen (Some 10) = STEPS
  /\ __init__ (Some 10) 0 (Some 5) 1 10 2048 64 false 8
     = Raise (ValueError "Both train_steps or train_epochs were be defined.")
  /\ __init__ (Some 10) 0 (Some 5) 1 10 2048 64 false 8
     <> Raise ZeroDivisionError
  /\ (forall e,
        __init__ (Some 10) 0 (Some 5) 1 10 2048 64 false 8 = Raise e ->
        InvalidConfiguration e = true).
Proof.
  repeat split.
  - discriminate.
  - intros e He. vm_compute in He. injection He as <-. reflexivity.
Qed.

(** The constructor accepts a batch size of zero under [use_tpu], and on
    that manager the conversion returns nothing: it raises
    [ZeroDivisionError] at the division of line 123. *)
Lemma epochs_to_steps_divides_by_zero_batch :
  __init__ None 300 None 1 10 0 64 true 8 = Return Corner.zero_batch_on_tpu
  /\ use_tpu Corner.zero_batch_on_tpu = true
  /\ epochs_to_steps Sample.NUM_EXAMPLES Corner.zero_batch_on_tpu 1 TRAIN
     = Raise ZeroDivisionError
  /\ ~ (exists steps,
          epochs_to_steps Sample.NUM_EXAMPLES Corner.zero_batch_on_tpu 1 TRAIN
          = Return steps).
Proof.
  repeat (split; [reflexivity |]). intros [steps H]. discriminate H.
Qed.

(** The quotient of [repeat_dataset] is a float, and the ceiling is taken
    of the float.  With 100000 training examples and
    [2 ^ 37 * 100000 + 1] steps per iteration the exact quotient is just
    above [2 ^ 37], the float nearest to it is [2 ^ 37] itself, and the
    property returns [2 ^ 37] where the ceiling of the quotient is
    [2 ^ 37 + 1]; likewise [2 ^ 53 + 1] steps over [2 ^ 53] examples give 1
    and not 2.  And with an empty training split any positive step count
    divides by zero. *)
Lemma repeat_dataset_rounds_before_ceiling :
  __init__ (Some 13743895347200001) 13743895347200001 None 1 10 2048 64
    false 8 = Return Corner.huge_iteration
  /\ 13743895347200001 > Sample.NUM_EXAMPLES TRAIN
  /\ repeat_dataset Sample.NUM_EXAMPLES Corner.huge_iteration
     = Return (Some 137438953472)
  /\ ceiling_of_quotient 13743895347200001 (Sample.NUM_EXAMPLES TRAIN)
     = 137438953473
  /\ __init__ (Some 9007199254740993) 9007199254740993 None 1 10 2048 64
       false 8 = Return Corner.iteration_past_53_bits
  /\ repeat_dataset Corner.NUM_EXAMPLES_53_bits Corner.iteration_past_53_bits
     = Return (Some 1)
  /\ ceiling_of_quotient 9007199254740993
       (Corner.NUM_EXAMPLES_53_bits TRAIN) = 2
  /\ __init__ (Some 1000000) 250000 None 1 10 2048 64 false 8
     = Return Sample.long_iterations
  /\ 250000 > Corner.NUM_EXAMPLES_empty TRAIN
  /\ repeat_dataset Corner.NUM_EXAMPLES_empty Sample.long_iterations
     = Raise ZeroDivisionError.
Proof. repeat split; vm_compute; reflexivity. Qed.

(** ** The theorems on the sample data *)

(** One epoch of the sample training set is 3125 steps on the TPU manager,
    and the conversion is refused off TPU. *)
Lemma epochs_to_steps_floor_sample :
  epochs_to_steps Sample.NUM_EXAMPLES Sample.on_tpu_by_epochs 1 TRAIN
  = Return 3125
  /\ exists e,
       epochs_to_steps Sample.NUM_EXAMPLES Sample.off_tpu_by_epochs 1 TRAIN
       = Raise e
       /\ PreconditionViolation e = true.
Proof.
  split.
  - destruct (epochs_to_steps_floor Sample.NUM_EXAMPLES
                Sample.on_tpu_by_epochs 1 TRAIN) as [H _].
    destruct (H eq_refl ltac:(simpl; lia)) as [E _]. exact E.
  - destruct (epochs_to_steps_floor Sample.NUM_EXAMPLES
                Sample.off_tpu_by_epochs 1 TRAIN) as (_ & _ & H).
    destruct (H eq_refl) as (e & E & _ & P). exists e. now split.
Defined.

(** 1000 steps with an evaluation every 300 make 3 iterations. *)
Lemma train_eval_iterations_floor_sample :
  train_eval_iterations Sample.on_tpu_by_steps = floor_of_quotient 1000 300
  /\ train_eval_iterations Sample.on_tpu_by_steps = 3.
Proof.
  destruct (train_eval_iterations_floor (Some 1000) 300 None 1 10 2048 64
              true 8 Sample.on_tpu_by_steps eq_refl) as (H & _ & E).
  split.
  - apply (H 1000 eq_refl). lia.
  - apply E; reflexivity.
Defined.

(** 1000 steps together with 5 epochs are rejected. *)
Lemma both_totals_rejected_sample :
  exists e,
    __init__ (Some 1000) 300 (Some 5) 1 10 2048 64 false 8 = Raise e
    /\ e = ValueError "Both train_steps or train_epochs were be defined."
    /\ InvalidConfiguration e = true.
Proof.
  apply (both_totals_rejected 1000 5 300 1 10 2048 64 false 8); lia.
Defined.

(** 2048 tokens in sequences of 64 go on 8 shards. *)
Lemma shard_check_when_reached_sample :
  exists self, __init__ (Some 1000) 300 None 1 10 2048 64 true 8 = Return self.
Proof.
  destruct (shard_check_when_reached (Some 1000) 300 None 1 10 2048 64 8
              eq_refl ltac:(simpl; lia)) as [H _].
  apply H; [lia | lia | reflexivity].
Defined.

(** One epoch per iteration on TPU is 3125 training steps. *)
Lemma single_iteration_train_steps_cases_sample :
  single_iteration_train_steps Sample.NUM_EXAMPLES Sample.on_tpu_by_epochs
  = Return (Some 3125).
Proof.
  destruct (single_iteration_train_steps_cases Sample.NUM_EXAMPLES
              None 300 None 1 10 2048 64 true 8 Sample.on_tpu_by_epochs
              eq_refl) as (_ & _ & H).
  destruct (H eq_refl eq_refl) as [_ E]. exact E.
Defined.

(** 250000 steps per iteration need 3 passes over 100000 examples. *)
Lemma repeat_dataset_cases_sample :
  repeat_dataset Sample.NUM_EXAMPLES Sample.long_iterations = Return (Some 3).
Proof.
  destruct (repeat_dataset_cases Sample.NUM_EXAMPLES
              (Some 1000000) 250000 None 1 10 2048 64 false 8
              Sample.long_iterations eq_refl) as (_ & H).
  destruct (H eq_refl) as (_ & _ & E & _).
  apply E; [reflexivity | discriminate | reflexivity | reflexivity].
Defined.


(** The step-basis sample keeps its single count through a round of the
    loop. *)
Lemma one_basis_for_life_sample :
  one_basis_only Sample.on_tpu_by_steps
  /\ one_basis_only
       (fst (lifetime Sample.NUM_EXAMPLES
               [read_single_iteration_train_steps; call_post_train;
                read_single_iteration_eval_steps; call_post_eval]
               Sample.on_tpu_by_steps [])).
Proof.
  destruct (one_basis_for_life Sample.NUM_EXAMPLES
              (Some 1000) 300 None 1 10 2048 64 true 8
              Sample.on_tpu_by_steps eq_refl) as [H L].
  split; [exact H |].
  apply (L [read_single_iteration_train_steps; call_post_train;
            read_single_iteration_eval_steps; call_post_eval] []).
Defined.

(** Two epochs are no fewer steps than one on the sample TPU manager. *)
Lemma epochs_to_steps_monotone_sample :
  exists steps1 steps2,
    epochs_to_steps Sample.NUM_EXAMPLES Sample.on_tpu_by_epochs 1 TRAIN
    = Return steps1
    /\ epochs_to_steps Sample.NUM_EXAMPLES Sample.on_tpu_by_epochs 2 TRAIN
       = Return steps2
    /\ steps1 <= steps2.
Proof.
  destruct (epochs_to_steps_monotone Sample.NUM_EXAMPLES
              Sample.on_tpu_by_epochs TRAIN eq_refl ltac:(simpl; lia))
    as [H _].
  apply H; [simpl; lia | lia].
Defined.

(** A step cadence of zero with the step total alone divides by zero. *)
Lemma zero_cadence_after_basis_check_sample :
  __init__ (Some 10) 0 None 1 10 2048 64 false 8 = Raise ZeroDivisionError.
Proof.
  destruct (zero_cadence_after_basis_check (Some 10) 0 None 1 10 2048 64
              false 8) as [H _].
  apply H; reflexivity.
Defined.

(** ** Further properties of the constructor *)

(** X1.  The constructor returns a manager exactly when: the two totals are
    not both given and non-zero; the cadence of the basis chosen is not
    zero; and, under [use_tpu], [max_length] and [num_tpu_shards] are not
    zero and [(batch_size // max_length) % num_tpu_shards == 0]. *)
Theorem __init___succeeds_iff
    (train_steps : option Z) (steps_between_evals : Z)
    (train_epochs : option Z) (epochs_between_evals : Z)
    (default_train_epochs batch_size max_length : Z)
    (use_tpu : bool) (num_tpu_shards : Z) :
  (exists self,
     __init__ train_steps steps_between_evals train_epochs
       epochs_between_evals default_train_epochs batch_size max_length
       use_tpu num_tpu_shards = Return self)
  <-> (truthy train_steps && truthy train_epochs = false
       /\ (if truthy train_steps then steps_between_evals
           else epochs_between_evals) <> 0
       /\ (use_tpu = true ->
           max_length <> 0 /\ num_tpu_shards <> 0
           /\ (batch_size / max_length) mod num_tpu_shards = 0)).
Proof.
  split.
  - intros [self Hc].
    destruct (constructed_inv _ _ _ _ _ _ _ _ _ _ Hc)
      as (Hboth & _ & _ & _ & _ & Htpu & Hbasis).
    split; [assumption |]. split; [| assumption].
    destruct Hbasis as [(t & -> & Ht & Hs & _) | (-> & He & _)].
    + now rewrite (truthy_Some_nonzero _ Ht).
    + assumption.
  - intros (Hboth & Hcadence & Htpu).
    destruct (__init___after_schedule train_steps steps_between_evals
                train_epochs epochs_between_evals default_train_epochs
                batch_size max_length use_tpu num_tpu_shards Hboth Hcadence)
      as [built ->].
    destruct use_tpu; [| now exists built].
    destruct (Htpu eq_refl) as (Hl & Hs & Hcond).
    rewrite (floordiv_nonzero _ _ Hl). simpl. unfold modulo.
    destruct (Z.eqb_spec num_tpu_shards 0) as [| _]; [contradiction |].
    simpl. rewrite Hcond. simpl. now exists built.
Qed.

(** X2.  Whatever the arguments, a failing construction raises one of three
    exceptions, in this order of precedence: the [ValueError] when both
    totals are given and non-zero; else [ZeroDivisionError] when the
    cadence of the basis chosen is zero, or under [use_tpu] when
    [max_length] or [num_tpu_shards] is zero; else the message-less
    [AssertionError], under [use_tpu] with a shard condition that is
    false.  It never raises [TypeError]. *)
Theorem __init___failures
    (train_steps : option Z) (steps_between_evals : Z)
    (train_epochs : option Z) (epochs_between_evals : Z)
    (default_train_epochs batch_size max_length : Z)
    (use_tpu : bool) (num_tpu_shards : Z) (e : exn) :
  __init__ train_steps steps_between_evals train_epochs
    epochs_between_evals default_train_epochs batch_size max_length
    use_tpu num_tpu_shards = Raise e ->
  let cadence := if truthy train_steps then steps_between_evals
                 else epochs_between_evals in
  (e = ValueError "Both train_steps or train_epochs were be defined."
   /\ truthy train_steps = true /\ truthy train_epochs = true)
  \/ (e = ZeroDivisionError
      /\ truthy train_steps && truthy train_epochs = false
      /\ (cadence = 0
          \/ (cadence <> 0 /\ use_tpu = true
              /\ (max_length = 0 \/ num_tpu_shards = 0))))
  \/ (e = AssertionError None
      /\ truthy train_steps && truthy train_epochs = false
      /\ cadence <> 0 /\ use_tpu = true
      /\ max_length <> 0 /\ num_tpu_shards <> 0
      /\ (batch_size / max_length) mod num_tpu_shards <> 0).
Proof.
  intros Hraise cadence.
  destruct (truthy train_steps && truthy train_epochs) eqn:Hboth.
  - left. unfold __init__ in Hraise. rewrite Hboth in Hraise.
    injection Hraise as <-. apply andb_true_iff in Hboth. tauto.
  - right. destruct (Z.eq_dec cadence 0) as [Hzero | Hcadence].
    + left. split; [| split; [reflexivity | left; assumption]].
      unfold __init__ in Hraise. rewrite Hboth in Hraise.
      subst cadence. destruct (truthy train_steps) eqn:Hts.
      * apply truthy_Some in Hts as (t & -> & _). rewrite Hzero in Hraise.
        simpl in Hraise. now injection Hraise as <-.
      * rewrite Hzero in Hraise. simpl in Hraise. now injection Hraise as <-.
    + destruct (__init___after_schedule train_steps steps_between_evals
                  train_epochs epochs_between_evals default_train_epochs
                  batch_size max_length use_tpu num_tpu_shards Hboth Hcadence)
        as [built Hrun].
      rewrite Hrun in Hraise. destruct use_tpu; [| discriminate].
      unfold floordiv, modulo in Hraise.
      destruct (Z.eqb_spec max_length 0) as [Hl | Hl].
      { left. injection Hraise as <-. auto 10. }
      simpl in Hraise.
      destruct (Z.eqb_spec num_tpu_shards 0) as [Hs | Hs].
      { left. injection Hraise as <-. auto 10. }
      simpl in Hraise.
      destruct (Z.eqb_spec ((batch_size / max_length) mod num_tpu_shards) 0)
        as [Hc | Hc]; [discriminate |].
      right. injection Hraise as <-. auto 10.
Qed.

(** X3.  A total of zero counts as no total.  [train_steps=0] constructs
    what [train_steps=None] constructs, and likewise for [train_epochs];
    so asking for zero steps and no epochs does not give an empty run but
    the epoch basis with [default_train_epochs]. *)
Theorem zero_total_is_no_total
    (train_steps : option Z) (steps_between_evals : Z)
    (train_epochs : option Z) (epochs_between_evals : Z)
    (default_train_epochs batch_size max_length : Z)
    (use_tpu : bool) (num_tpu_shards : Z) :
  __init__ (Some 0) steps_between_evals train_epochs epochs_between_evals
    default_train_epochs batch_size max_length use_tpu num_tpu_shards
  = __init__ None steps_between_evals train_epochs epochs_between_evals
      default_train_epochs batch_size max_length use_tpu num_tpu_shards
  /\ __init__ train_steps steps_between_evals (Some 0) epochs_between_evals
       default_train_epochs batch_size max_length use_tpu num_tpu_shards
     = __init__ train_steps steps_between_evals None epochs_between_evals
         default_train_epochs batch_size max_length use_tpu num_tpu_shards
  /\ (forall self,
        __init__ (Some 0) steps_between_evals None epochs_between_evals
          default_train_epochs batch_size max_length use_tpu num_tpu_shards
        = Return self ->
        train_eval_iterations self
        = default_train_epochs / epochs_between_evals
        /\ _single_iteration_train_steps self = None
        /\ _single_iteration_train_epochs self = Some epochs_between_evals).
Proof.
  split; [reflexivity |]. split.
  - unfold __init__. destruct (truthy train_steps); reflexivity.
  - intros self Hc.
    destruct (constructed_inv _ _ _ _ _ _ _ _ _ _ Hc)
      as (_ & _ & _ & _ & _ & _ & Hbasis).
    destruct Hbasis as [(t & [= <-] & Ht & _) | (_ & _ & Hit & Hst & Hep)];
      [contradiction |].
    auto.
Qed.

(** X4.  With a positive cadence the iterations cover the total from below
    and miss less than one cadence of it: [iterations * cadence <= total <
    iterations * cadence + cadence], in steps on the step basis and in
    epochs on the epoch basis.  A non-negative total thus gives a
    non-negative iteration count, which is zero exactly when the total is
    smaller than the cadence: such a schedule runs no iteration at all. *)
Theorem iterations_cover_the_total
    (train_steps : option Z) (steps_between_evals : Z)
    (train_epochs : option Z) (epochs_between_evals : Z)
    (default_train_epochs batch_size max_length : Z)
    (use_tpu : bool) (num_tpu_shards : Z) (self : Manager) :
  __init__ train_steps steps_between_evals train_epochs
    epochs_between_evals default_train_epochs batch_size max_length
    use_tpu num_tpu_shards = Return self ->
  let covers (total cadence : Z) :=
    train_eval_iterations self * cadence <= total
      < train_eval_iterations self * cadence + cadence
    /\ (0 <= total -> 0 <= train_eval_iterations self)
    /\ (train_eval_iterations self = 0 <-> 0 <= total < cadence) in
  (forall total, train_steps = Some total -> total <> 0 ->
     0 < steps_between_evals -> covers total steps_between_evals)
  /\ (truthy train_steps = false -> 0 < epochs_between_evals ->
      covers (or_else train_epochs default_train_epochs)
        epochs_between_evals).
Proof.
  intros Hc covers.
  assert (Hdiv : forall total cadence,
             0 < cadence -> train_eval_iterations self = total / cadence ->
             covers total cadence).
  { intros total cadence Hpos Hit. unfold covers. rewrite Hit.
    pose proof (Z.div_mod total cadence ltac:(lia)) as Hq.
    pose proof (Z.mod_pos_bound total cadence Hpos) as Hr.
    split; [lia |]. split.
    - intros Htot. apply Z.div_pos; assumption.
    - split.
      + intros Hz. rewrite Hz in Hq. lia.
      + intros Hsmall. now apply Z.div_small. }
  destruct (constructed_inv _ _ _ _ _ _ _ _ _ _ Hc)
    as (_ & _ & _ & _ & _ & _ & Hbasis).
  destruct Hbasis as [(t & Hts & Ht & _ & Hit & _) | (Hts & _ & Hit & _)].
  - split.
    + intros total E _ Hpos. rewrite Hts in E. injection E as <-.
      now apply Hdiv.
    + intros E. rewrite Hts, (truthy_Some_nonzero _ Ht) in E. discriminate.
  - split.
    + intros total -> Htot. rewrite (truthy_Some_nonzero _ Htot) in Hts.
      discriminate.
    + intros _ Hpos. now apply Hdiv.
Qed.

(** ** Further properties of the conversion *)

Lemma div_nearly_additive (x y d : Z) :
  d <> 0 -> x / d + y / d <= (x + y) / d <= x / d + y / d + 1.
Proof.
  intros Hd.
  pose proof (Z.div_mod x d Hd) as Hx.
  pose proof (Z.div_mod y d Hd) as Hy.
  pose proof (Z.div_mod (x + y) d Hd) as Hxy.
  destruct (Z.lt_trichotomy d 0) as [Hneg | [Hzero | Hpos]];
    [| contradiction |].
  - pose proof (Z.mod_neg_bound x d Hneg).
    pose proof (Z.mod_neg_bound y d Hneg).
    pose proof (Z.mod_neg_bound (x + y) d Hneg). nia.
  - pose proof (Z.mod_pos_bound x d Hpos).
    pose proof (Z.mod_pos_bound y d Hpos).
    pose proof (Z.mod_pos_bound (x + y) d Hpos). nia.
Qed.

(** X5.  Under [use_tpu], with a non-zero batch size, converting two epoch
    counts apart loses at most one step against converting their sum:
    [steps(a) + steps(b) <= steps(a + b) <= steps(a) + steps(b) + 1]. *)
Theorem epochs_to_steps_nearly_additive
    (NUM_EXAMPLES : ModeKeys -> Z) (self : Manager) (mode : ModeKeys)
    (a b : Z) :
  use_tpu self = true -> batch_size self <> 0 ->
  exists steps_a steps_b steps_ab,
    epochs_to_steps NUM_EXAMPLES self a mode = Return steps_a
    /\ epochs_to_steps NUM_EXAMPLES self b mode = Return steps_b
    /\ epochs_to_steps NUM_EXAMPLES self (a + b) mode = Return steps_ab
    /\ steps_a + steps_b <= steps_ab <= steps_a + steps_b + 1.
Proof.
  intros Htpu Hb. unfold epochs_to_steps. rewrite Htpu. simpl.
  rewrite !floordiv_nonzero by assumption.
  do 3 eexists. repeat (split; [reflexivity |]).
  rewrite Z.mul_add_distr_l. now apply div_nearly_additive.
Qed.

(** X6.  A run by epochs on TPU never trains more steps than its epochs
    amount to.  For a constructed manager on the epoch basis with
    [use_tpu], a positive batch size, a non-negative token count per
    epoch, a positive cadence and a non-negative epoch total: the steps of
    one iteration are not negative, and the iterations times the steps of
    one iteration do not exceed the conversion of the whole epoch total. *)
Theorem tpu_epochs_run_within_total
    (NUM_EXAMPLES : ModeKeys -> Z)
    (train_steps : option Z) (steps_between_evals : Z)
    (train_epochs : option Z) (epochs_between_evals : Z)
    (default_train_epochs batch_size' max_length' : Z)
    (num_tpu_shards : Z) (self : Manager) :
  __init__ train_steps steps_between_evals train_epochs
    epochs_between_evals default_train_epochs batch_size' max_length'
    true num_tpu_shards = Return self ->
  truthy train_steps = false ->
  0 < batch_size' ->
  0 <= NUM_EXAMPLES TRAIN * max_length' ->
  0 < epochs_between_evals ->
  0 <= or_else train_epochs default_train_epochs ->
  exists per_iteration whole,
    single_iteration_train_steps NUM_EXAMPLES self
    = Return (Some per_iteration)
    /\ epochs_to_steps NUM_EXAMPLES self
         (or_else train_epochs default_train_epochs) TRAIN = Return whole
    /\ 0 <= per_iteration
    /\ train_eval_iterations self * per_iteration <= whole.
Proof.
  intros Hc Hts Hb Htokens Hcadence Htotal.
  destruct (constructed_inv _ _ _ _ _ _ _ _ _ _ Hc)
    as (_ & Hl & Hbs & Hu & _ & _ & Hbasis).
  destruct Hbasis as [(t & E & Ht & _) | (_ & _ & Hit & Hst & Hep)].
  { rewrite E, (truthy_Some_nonzero _ Ht) in Hts. discriminate. }
  unfold single_iteration_train_steps, epochs_to_steps.
  rewrite Hst, Hep, Hu, Hl, Hbs. simpl.
  rewrite !floordiv_nonzero by lia. simpl.
  do 2 eexists. repeat (split; [reflexivity |]).
  set (K := NUM_EXAMPLES TRAIN * max_length') in *.
  set (E := or_else train_epochs default_train_epochs) in *.
  rewrite Hit.
  pose proof (Z.div_mod E epochs_between_evals ltac:(lia)) as Hq.
  pose proof (Z.mod_pos_bound E epochs_between_evals Hcadence) as Hr.
  assert (Hn : 0 <= E / epochs_between_evals) by (apply Z.div_pos; lia).
  split.
  - apply Z.div_pos; [nia | assumption].
  - apply Z.div_le_lower_bound; [assumption |].
    pose proof (Z.mul_div_le (K * epochs_between_evals) batch_size' Hb).
    nia.
Qed.

(** ** Further properties of the derived properties *)


(** X8.  A constructed manager never leaves an iteration without a bound:
    [single_iteration_train_steps] and [repeat_dataset] are never both
    [None].  On the step basis the first returns the non-zero cadence in
    steps, on the epoch basis the second returns the non-zero cadence in
    epochs. *)
Theorem iteration_is_always_bounded
    (NUM_EXAMPLES : ModeKeys -> Z)
    (train_steps : option Z) (steps_between_evals : Z)
    (train_epochs : option Z) (epochs_between_evals : Z)
    (default_train_epochs batch_size max_length : Z)
    (use_tpu : bool) (num_tpu_shards : Z) (self : Manager) :
  __init__ train_steps steps_between_evals train_epochs
    epochs_between_evals default_train_epochs batch_size max_length
    use_tpu num_tpu_shards = Return self ->
  ~ (single_iteration_train_steps NUM_EXAMPLES self = Return None
     /\ repeat_dataset NUM_EXAMPLES self = Return None)
  /\ match basis_chosen train_steps with
     | STEPS =>
         steps_between_evals <> 0
         /\ single_iteration_train_steps NUM_EXAMPLES self
            = Return (Some steps_between_evals)
     | EPOCHS =>
         epochs_between_evals <> 0
         /\ repeat_dataset NUM_EXAMPLES self
            = Return (Some epochs_between_evals)
     end.
Proof.
  intros Hc. from_construction Hc Hu Hbasis.
  assert (Hcase : match basis_chosen train_steps with
                  | STEPS =>
                      steps_between_evals <> 0
                      /\ single_iteration_train_steps NUM_EXAMPLES self
                         = Return (Some steps_between_evals)
                  | EPOCHS =>
                      epochs_between_evals <> 0
                      /\ repeat_dataset NUM_EXAMPLES self
                         = Return (Some epochs_between_evals)
                  end).
  { unfold single_iteration_train_steps, repeat_dataset.
    destruct (basis_chosen train_steps);
      destruct Hbasis as (Hnz & Hst & Hep); rewrite ?Hst, ?Hep.
    - rewrite (truthy_Some_nonzero _ Hnz). now split.
    - now split. }
  split; [| exact Hcase].
  intros [Hsteps Hrepeat].
  destruct (basis_chosen train_steps); destruct Hcase as [_ E].
  - rewrite E in Hsteps. discriminate.
  - rewrite E in Hrepeat. discriminate.
Qed.

(** X9.  When [repeat_dataset] asks for repetition it asks for just
    enough.  On the step basis, with [0 < NUM_EXAMPLES[TRAIN]] below the
    steps of an iteration, it returns a count [k] of at least 2 such that
    [k] passes hold the steps and [k - 1] passes do not:
    [(k - 1) * NUM_EXAMPLES[TRAIN] < steps <= k * NUM_EXAMPLES[TRAIN]].
    The steps are taken below [2 ^ 53], the range in which the rounding of
    the float quotient leaves its ceiling where the exact quotient has
    it. *)
Theorem repeat_dataset_is_just_enough
    (NUM_EXAMPLES : ModeKeys -> Z)
    (train_steps : option Z) (steps_between_evals : Z)
    (train_epochs : option Z) (epochs_between_evals : Z)
    (default_train_epochs batch_size max_length : Z)
    (use_tpu : bool) (num_tpu_shards : Z) (self : Manager) :
  __init__ train_steps steps_between_evals train_epochs
    epochs_between_evals default_train_epochs batch_size max_length
    use_tpu num_tpu_shards = Return self ->
  basis_chosen train_steps = STEPS ->
  0 < NUM_EXAMPLES TRAIN ->
  NUM_EXAMPLES TRAIN < steps_between_evals ->
  steps_between_evals < 2 ^ 53 ->
  exists k,
    repeat_dataset NUM_EXAMPLES self = Return (Some k)
    /\ 2 <= k
    /\ (k - 1) * NUM_EXAMPLES TRAIN < steps_between_evals
       <= k * NUM_EXAMPLES TRAIN.
Proof.
  intros Hc HB Hpos Hmore Hrange. from_construction Hc Hu Hbasis.
  rewrite HB in Hbasis. destruct Hbasis as (Hnz & Hst & Hep).
  unfold repeat_dataset. rewrite Hst, Hep. cbn [as_int bind].
  destruct (Z.gtb_spec steps_between_evals (NUM_EXAMPLES TRAIN))
    as [_ | Hle]; [| lia].
  destruct (truediv_small steps_between_evals (NUM_EXAMPLES TRAIN)
              Hnz ltac:(lia) ltac:(lia) ltac:(lia)) as (x & -> & Hx).
  cbn [bind]. eexists. split; [reflexivity |].
  rewrite Hx, (ceiling_of_quotient_pos _ _ Hpos).
  set (count := NUM_EXAMPLES TRAIN) in *.
  pose proof (Z.div_mod (steps_between_evals + count - 1) count ltac:(lia))
    as Hq.
  pose proof (Z.mod_pos_bound (steps_between_evals + count - 1) count Hpos)
    as Hr.
  nia.
Qed.

(** ** The hooks *)

Lemma seconds_slept_app (w1 w2 : list event) :
  seconds_slept (w1 ++ w2) = seconds_slept w1 + seconds_slept w2.
Proof.
  induction w1 as [| [msg | secs] w1 IH]; simpl; lia.
Qed.

Lemma seconds_slept_pauses (n : nat) :
  seconds_slept (pauses n) = 60 * Z.of_nat n.
Proof.
  induction n as [| n IH]; [reflexivity |].
  cbn [pauses seconds_slept]. rewrite IH, Nat2Z.inj_succ. lia.
Qed.

Lemma perform_world
    (NUM_EXAMPLES : ModeKeys -> Z) (op : operation) (self : Manager)
    (world : list event) :
  snd (perform NUM_EXAMPLES op self world)
  = (world ++ if is_hook op && use_tpu self then pauses 1 else [])%list.
Proof.
  destruct op; simpl; unfold post_train, post_eval, _sleep_if_tpu;
    try (now rewrite app_nil_r);
    destruct (use_tpu self); simpl; now rewrite ?app_nil_r.
Qed.

(** X10.  Over any sequence of property reads and method calls, the log
    grows only through the hooks: on TPU each call of [post_train],
    [post_eval] or [_sleep_if_tpu] appends one log line followed by one
    sleep of 60 seconds, in the order of the calls, after what was logged
    before; off TPU nothing is appended.  The seconds slept thus grow by
    60 per hook call on TPU and by nothing off TPU, and reading a
    property never sleeps. *)
Theorem hooks_pause_once_per_call
    (NUM_EXAMPLES : ModeKeys -> Z) (ops : list operation) (self : Manager)
    (world : list event) :
  snd (lifetime NUM_EXAMPLES ops self world)
  = (world ++ if use_tpu self then pauses (hooks_called ops) else [])%list
  /\ seconds_slept (snd (lifetime NUM_EXAMPLES ops self world))
     = seconds_slept world
       + (if use_tpu self then 60 * Z.of_nat (hooks_called ops) else 0).
Proof.
  assert (Hlog : forall ops world,
             snd (lifetime NUM_EXAMPLES ops self world)
             = (world ++ if use_tpu self then pauses (hooks_called ops)
                         else [])%list).
  { clear ops world. induction ops as [| op ops IH]; intros world.
    - simpl. destruct (use_tpu self); now rewrite app_nil_r.
    - simpl.
      pose proof (perform_keeps_self NUM_EXAMPLES op self world) as Hk.
      pose proof (perform_world NUM_EXAMPLES op self world) as Hw.
      destruct (perform NUM_EXAMPLES op self world)
        as [[outcome self'] world'].
      simpl in Hk, Hw. subst self' world'. rewrite IH.
      unfold hooks_called. simpl filter.
      destruct (is_hook op); destruct (use_tpu self); simpl;
        rewrite ?app_nil_r; try reflexivity.
      rewrite <- app_assoc. reflexivity. }
  split; [apply Hlog |].
  rewrite Hlog, seconds_slept_app.
  destruct (use_tpu self); [now rewrite seconds_slept_pauses | reflexivity].
Qed.

(** ** Reading a progress label back *)

Lemma string_append_cancel_r (s t u : string) :
  (s ++ u = t ++ u)%string -> s = t.
Proof.
  revert t. induction s as [| c s IH]; intros [| d t] H; simpl in H.
  - reflexivity.
  - apply (f_equal String.length) in H. simpl in H.
    rewrite string_append_length in H. lia.
  - apply (f_equal String.length) in H. simpl in H.
    rewrite string_append_length in H. lia.
  - injection H as -> H. f_equal. now apply IH.
Qed.

(** The decimal form parses back to the integer it came from, so it tells
    integers apart. *)
Lemma str_int_parses_back (z : Z) :
  NilZero.int_of_string (str_int z) = Some (Z.to_int z).
Proof.
  unfold str_int. apply NilZero.isi; destruct z as [| p | p]; simpl;
    try discriminate;
    intros [= E]; now apply (DecimalPos.Unsigned.to_uint_nonnil p).
Qed.

Lemma str_int_inj (a b : Z) : str_int a = str_int b -> a = b.
Proof.
  intros E. apply DecimalZ.to_int_inj.
  pose proof (str_int_parses_back a) as Ha.
  rewrite E, str_int_parses_back in Ha. now injection Ha.
Qed.

(** The decimal form holds no space. *)
Lemma str_int_spaceless (z : Z) :
  ~ In " "%char (list_ascii_of_string (str_int z)).
Proof.
  assert (Hdigits : forall d,
             ~ In " "%char
                 (list_ascii_of_string (NilEmpty.string_of_uint d))).
  { induction d; simpl; [intros [] | ..];
      intros [E | E]; (discriminate || auto). }
  assert (Hu : forall d,
             ~ In " "%char (list_ascii_of_string (NilZero.string_of_uint d))).
  { intros d. destruct d; simpl; intros [E | E];
      try discriminate; try contradiction; now apply (Hdigits d). }
  unfold str_int, NilZero.string_of_int. destruct (Z.to_int z) as [d | d].
  - apply Hu.
  - simpl. intros [E | E]; [discriminate | now apply (Hu d)].
Qed.

(** Two equal strings split alike at their first space. *)
Lemma split_at_first_space (s t x y : string) :
  ~ In " "%char (list_ascii_of_string s) ->
  ~ In " "%char (list_ascii_of_string t) ->
  (s ++ String " " x = t ++ String " " y)%string ->
  s = t /\ x = y.
Proof.
  revert t. induction s as [| c s IH]; intros [| d t] Hs Ht H; simpl in *.
  - injection H as <-. now split.
  - injection H as <- _. tauto.
  - injection H as -> _. tauto.
  - injection H as -> H.
    destruct (IH t) as [-> ->]; [tauto | tauto | assumption | now split].
Qed.

(** The label of a constructed manager, case by case. *)
Lemma constructed_label
    (NUM_EXAMPLES : ModeKeys -> Z)
    (train_steps : option Z) (steps_between_evals : Z)
    (train_epochs : option Z) (epochs_between_evals : Z)
    (default_train_epochs batch_size max_length : Z)
    (use_tpu : bool) (num_tpu_shards : Z) (self : Manager) :
  __init__ train_steps steps_between_evals train_epochs
    epochs_between_evals default_train_epochs batch_size max_length
    use_tpu num_tpu_shards = Return self ->
  train_increment_str NUM_EXAMPLES self
  = match basis_chosen train_steps with
    | STEPS => Return (str_int steps_between_evals ++ " steps.")%string
    | EPOCHS =>
        if use_tpu then
          steps <- epochs_to_steps NUM_EXAMPLES self
                     epochs_between_evals TRAIN ;;
          Return ("~" ++ str_int epochs_between_evals ++ " epochs. ("
                      ++ str_int steps ++ " steps)")%string
        else Return (str_int epochs_between_evals ++ " epochs.")%string
    end.
Proof.
  intros Hc. from_construction Hc Hu Hbasis.
  unfold train_increment_str, single_iteration_train_steps. rewrite Hu.
  destruct (basis_chosen train_steps);
    destruct Hbasis as (Hnz & Hst & Hep); rewrite Hst, Hep.
  - now rewrite (truthy_Some_nonzero _ Hnz).
  - destruct use_tpu; simpl; [| reflexivity].
    destruct (epochs_to_steps NUM_EXAMPLES self epochs_between_evals TRAIN);
      reflexivity.
Qed.

(** X11.  The progress label tells schedules apart.  If two constructed
    managers show the same label, they are on the same basis with the same
    per-iteration count; on the epoch basis they moreover agree on
    [use_tpu] and, on TPU, on the steps the epochs of an iteration convert
    to. *)
Theorem equal_labels_equal_schedules
    (NUM_EXAMPLES : ModeKeys -> Z)
    (train_steps1 : option Z) (steps_between_evals1 : Z)
    (train_epochs1 : option Z) (epochs_between_evals1 : Z)
    (default_train_epochs1 batch_size1 max_length1 : Z)
    (use_tpu1 : bool) (num_tpu_shards1 : Z) (self1 : Manager)
    (train_steps2 : option Z) (steps_between_evals2 : Z)
    (train_epochs2 : option Z) (epochs_between_evals2 : Z)
    (default_train_epochs2 batch_size2 max_length2 : Z)
    (use_tpu2 : bool) (num_tpu_shards2 : Z) (self2 : Manager)
    (label : string) :
  __init__ train_steps1 steps_between_evals1 train_epochs1
    epochs_between_evals1 default_train_epochs1 batch_size1 max_length1
    use_tpu1 num_tpu_shards1 = Return self1 ->
  __init__ train_steps2 steps_between_evals2 train_epochs2
    epochs_between_evals2 default_train_epochs2 batch_size2 max_length2
    use_tpu2 num_tpu_shards2 = Return self2 ->
  train_increment_str NUM_EXAMPLES self1 = Return label ->
  train_increment_str NUM_EXAMPLES self2 = Return label ->
  basis_chosen train_steps1 = basis_chosen train_steps2
  /\ match basis_chosen train_steps1 with
     | STEPS => steps_between_evals1 = steps_between_evals2
     | EPOCHS =>
         epochs_between_evals1 = epochs_between_evals2
         /\ use_tpu1 = use_tpu2
         /\ (use_tpu1 = true ->
             epochs_to_steps NUM_EXAMPLES self1 epochs_between_evals1 TRAIN
             = epochs_to_steps NUM_EXAMPLES self2 epochs_between_evals2 TRAIN)
     end.
Proof.
  intros Hc1 Hc2 H1 H2.
  rewrite (constructed_label _ _ _ _ _ _ _ _ _ _ _ Hc1) in H1.
  rewrite (constructed_label _ _ _ _ _ _ _ _ _ _ _ Hc2) in H2.
  clear Hc1 Hc2.
  remember (epochs_to_steps NUM_EXAMPLES self1 epochs_between_evals1 TRAIN)
    as converted1 eqn:E1.
  remember (epochs_to_steps NUM_EXAMPLES self2 epochs_between_evals2 TRAIN)
    as converted2 eqn:E2.
  clear E1 E2.
  destruct (basis_chosen train_steps1), (basis_chosen train_steps2);
    destruct use_tpu1, use_tpu2;
    destruct converted1 as [m1 | e1], converted2 as [m2 | e2];
    cbn [bind] in H1, H2;
    try discriminate;
    injection H1 as H1; injection H2 as H2; rewrite <- H2 in H1; clear H2;
    try (exfalso; revert H1; apply steps_label_is_not_epochs_label);
    try (exfalso; revert H1; apply plain_label_is_not_converted_label);
    try (exfalso; symmetry in H1; revert H1;
         apply steps_label_is_not_epochs_label);
    try (exfalso; symmetry in H1; revert H1;
         apply plain_label_is_not_converted_label);
    try (apply string_append_cancel_r, str_int_inj in H1; subst;
         repeat split; (reflexivity || discriminate)).
  cbn [append] in H1. injection H1 as H1.
  change (str_int epochs_between_evals1
          ++ String " " ("epochs. (" ++ str_int m1 ++ " steps)")
          = str_int epochs_between_evals2
            ++ String " " ("epochs. (" ++ str_int m2 ++ " steps)"))%string
    in H1.
  apply split_at_first_space in H1 as [He Hm];
    [| apply str_int_spaceless | apply str_int_spaceless].
  apply str_int_inj in He. cbn [append] in Hm. injection Hm as Hm.
  apply string_append_cancel_r, str_int_inj in Hm. subst.
  repeat split; reflexivity.
Qed.

(** ** Batch size and evaluation *)

(** X12.  A larger batch means no more steps.  For two managers under
    [use_tpu] with the same [max_length] and positive batch sizes, and a
    non-negative token count, the manager with the larger batch size
    converts the same epochs to no more steps, and neither result is
    negative. *)
Theorem epochs_to_steps_shrinks_with_batch_size
    (NUM_EXAMPLES : ModeKeys -> Z) (self1 self2 : Manager)
    (num_epochs : Z) (mode : ModeKeys) :
  use_tpu self1 = true -> use_tpu self2 = true ->
  max_length self1 = max_length self2 ->
  0 < batch_size self1 <= batch_size self2 ->
  0 <= NUM_EXAMPLES mode * max_length self1 * num_epochs ->
  exists steps1 steps2,
    epochs_to_steps NUM_EXAMPLES self1 num_epochs mode = Return steps1
    /\ epochs_to_steps NUM_EXAMPLES self2 num_epochs mode = Return steps2
    /\ 0 <= steps2 <= steps1.
Proof.
  intros Htpu1 Htpu2 Hlen Hbatch Htokens. unfold epochs_to_steps.
  rewrite Htpu1, Htpu2, <- Hlen. simpl.
  rewrite !floordiv_nonzero by lia.
  do 2 eexists. repeat (split; [reflexivity |]). split.
  - apply Z.div_pos; lia.
  - apply Z.div_le_compat_l; assumption.
Qed.

(** X13.  On a constructed manager [single_iteration_eval_steps] is [None]
    without [use_tpu].  With [use_tpu] and a positive batch size it is a
    step count that covers the tokens of one pass over the evaluation set
    from below and misses less than one batch of them; with a non-negative
    token count it is zero exactly when the evaluation set holds less than
    one batch, so that such an evaluation runs no step. *)
Theorem single_iteration_eval_steps_covers_one_pass
    (NUM_EXAMPLES : ModeKeys -> Z)
    (train_steps : option Z) (steps_between_evals : Z)
    (train_epochs : option Z) (epochs_between_evals : Z)
    (default_train_epochs batch_size' max_length' : Z)
    (use_tpu' : bool) (num_tpu_shards' : Z) (self : Manager) :
  __init__ train_steps steps_between_evals train_epochs
    epochs_between_evals default_train_epochs batch_size' max_length'
    use_tpu' num_tpu_shards' = Return self ->
  (use_tpu' = false ->
   single_iteration_eval_steps NUM_EXAMPLES self = Return None)
  /\ (use_tpu' = true -> 0 < batch_size' ->
      let tokens := NUM_EXAMPLES EVAL * max_length' in
      exists steps,
        single_iteration_eval_steps NUM_EXAMPLES self = Return (Some steps)
        /\ steps * batch_size' <= tokens < steps * batch_size' + batch_size'
        /\ (0 <= tokens -> (steps = 0 <-> tokens < batch_size'))).
Proof.
  intros Hc.
  destruct (constructed_basis _ _ _ _ _ _ _ _ _ _ Hc)
    as (Hu & Hb & Hl & _).
  unfold single_iteration_eval_steps, epochs_to_steps.
  rewrite Hu, Hb, Hl. split.
  - intros ->. reflexivity.
  - intros -> Hpos. simpl. rewrite floordiv_nonzero by lia. simpl.
    eexists. split; [reflexivity |].
    rewrite Z.mul_1_r. set (tokens := NUM_EXAMPLES EVAL * max_length').
    pose proof (Z.div_mod tokens batch_size' ltac:(lia)) as Hq.
    pose proof (Z.mod_pos_bound tokens batch_size' Hpos) as Hr.
    split; [lia |]. intros Htok. split.
    + intros Hz. rewrite Hz in Hq. lia.
    + intros Hsmall. apply Z.div_small. lia.
Qed.

(** X14.  On TPU the run loop always gets numbers.  For a constructed
    manager under [use_tpu] with a non-zero batch size, on either basis,
    [single_iteration_train_steps] and [single_iteration_eval_steps] both
    return an integer, never [None]; without [use_tpu] the evaluation
    steps are [None] and the training steps are [None] exactly on the
    epoch basis. *)
Theorem step_counts_are_numbers_on_tpu
    (NUM_EXAMPLES : ModeKeys -> Z)
    (train_steps : option Z) (steps_between_evals : Z)
    (train_epochs : option Z) (epochs_between_evals : Z)
    (default_train_epochs batch_size' max_length' : Z)
    (use_tpu' : bool) (num_tpu_shards' : Z) (self : Manager) :
  __init__ train_steps steps_between_evals train_epochs
    epochs_between_evals default_train_epochs batch_size' max_length'
    use_tpu' num_tpu_shards' = Return self ->
  (use_tpu' = true -> batch_size' <> 0 ->
   exists steps_of_training steps_of_evaluation,
     single_iteration_train_steps NUM_EXAMPLES self
     = Return (Some steps_of_training)
     /\ single_iteration_eval_steps NUM_EXAMPLES self
        = Return (Some steps_of_evaluation))
  /\ (use_tpu' = false ->
      single_iteration_eval_steps NUM_EXAMPLES self = Return None
      /\ (single_iteration_train_steps NUM_EXAMPLES self = Return None
          <-> basis_chosen train_steps = EPOCHS)).
Proof.
  intros Hc.
  destruct (constructed_basis _ _ _ _ _ _ _ _ _ _ Hc)
    as (Hu & Hb & _ & Hbasis).
  unfold single_iteration_train_steps, single_iteration_eval_steps,
    epochs_to_steps.
  rewrite Hu, Hb.
  destruct (basis_chosen train_steps);
    destruct Hbasis as (Hnz & Hst & Hep); rewrite Hst, Hep;
    try rewrite (truthy_Some_nonzero _ Hnz);
    (split; [intros -> Hbs; simpl; rewrite ?floordiv_nonzero by assumption;
             simpl; do 2 eexists; split; reflexivity
            | intros ->; simpl; split; [reflexivity |];
              split; intros E; (reflexivity || discriminate)]).
Qed.

(** ** The further properties on the sample data *)

(** The sample arguments by steps on TPU meet the three conditions. *)
Lemma __init___succeeds_iff_sample :
  exists self, __init__ (Some 1000) 300 None 1 10 2048 64 true 8 = Return self.
Proof.
  apply (__init___succeeds_iff (Some 1000) 300 None 1 10 2048 64 true 8).
  split; [reflexivity |]. split; [simpl; lia |].
  intros _. repeat split; (lia || reflexivity).
Defined.

(** With 7 shards the failure is the assertion, for the reason given. *)
Lemma __init___failures_sample : (2048 / 64) mod 7 <> 0.
Proof.
  destruct (__init___failures (Some 1000) 300 None 1 10 2048 64 true 7
              (AssertionError None) eq_refl)
    as [(E & _) | [(E & _) | (_ & _ & _ & _ & _ & _ & H)]];
    [discriminate E | discriminate E | exact H].
Defined.

(** Zero steps and no epochs construct the manager of the defaults. *)
Lemma zero_total_is_no_total_sample :
  train_eval_iterations Sample.off_tpu_by_epochs = 10 / 1
  /\ _single_iteration_train_steps Sample.off_tpu_by_epochs = None
  /\ _single_iteration_train_epochs Sample.off_tpu_by_epochs = Some 1.
Proof.
  destruct (zero_total_is_no_total None 300 None 1 10 2048 64 false 8)
    as (_ & _ & H).
  apply H. reflexivity.
Defined.

(** 3 iterations of 300 steps stay within 1000 steps and miss 100. *)
Lemma iterations_cover_the_total_sample :
  train_eval_iterations Sample.on_tpu_by_steps * 300 <= 1000
    < train_eval_iterations Sample.on_tpu_by_steps * 300 + 300.
Proof.
  destruct (iterations_cover_the_total (Some 1000) 300 None 1 10 2048 64
              true 8 Sample.on_tpu_by_steps eq_refl) as [H _].
  destruct (H 1000 eq_refl ltac:(lia) ltac:(lia)) as [Hcover _].
  exact Hcover.
Defined.

(** One epoch and two epochs against three on the sample TPU manager. *)
Lemma epochs_to_steps_nearly_additive_sample :
  exists steps_a steps_b steps_ab,
    epochs_to_steps Sample.NUM_EXAMPLES Sample.on_tpu_by_epochs 1 TRAIN
    = Return steps_a
    /\ epochs_to_steps Sample.NUM_EXAMPLES Sample.on_tpu_by_epochs 2 TRAIN
       = Return steps_b
    /\ epochs_to_steps Sample.NUM_EXAMPLES Sample.on_tpu_by_epochs (1 + 2)
         TRAIN = Return steps_ab
    /\ steps_a + steps_b <= steps_ab <= steps_a + steps_b + 1.
Proof.
  apply (epochs_to_steps_nearly_additive Sample.NUM_EXAMPLES
           Sample.on_tpu_by_epochs TRAIN 1 2 eq_refl).
  simpl. lia.
Defined.

(** Ten iterations of one epoch on TPU stay within ten epochs of steps. *)
Lemma tpu_epochs_run_within_total_sample :
  exists per_iteration whole,
    single_iteration_train_steps Sample.NUM_EXAMPLES Sample.on_tpu_by_epochs
    = Return (Some per_iteration)
    /\ epochs_to_steps Sample.NUM_EXAMPLES Sample.on_tpu_by_epochs
         (or_else None 10) TRAIN = Return whole
    /\ 0 <= per_iteration
    /\ train_eval_iterations Sample.on_tpu_by_epochs * per_iteration <= whole.
Proof.
  apply (tpu_epochs_run_within_total Sample.NUM_EXAMPLES None 300 None 1 10
           2048 64 8 Sample.on_tpu_by_epochs eq_refl eq_refl);
    simpl; lia.
Defined.


(** The sample by epochs off TPU is bounded by its repeat count. *)
Lemma iteration_is_always_bounded_sample :
  ~ (single_iteration_train_steps Sample.NUM_EXAMPLES
       Sample.off_tpu_by_epochs = Return None
     /\ repeat_dataset Sample.NUM_EXAMPLES Sample.off_tpu_by_epochs
        = Return None).
Proof.
  destruct (iteration_is_always_bounded Sample.NUM_EXAMPLES
              None 300 None 1 10 2048 64 false 8 Sample.off_tpu_by_epochs
              eq_refl) as [H _].
  exact H.
Defined.

(** 250000 steps need more than 2 and no more than 3 passes. *)
Lemma repeat_dataset_is_just_enough_sample :
  exists k,
    repeat_dataset Sample.NUM_EXAMPLES Sample.long_iterations
    = Return (Some k)
    /\ 2 <= k
    /\ (k - 1) * Sample.NUM_EXAMPLES TRAIN < 250000
       <= k * Sample.NUM_EXAMPLES TRAIN.
Proof.
  apply (repeat_dataset_is_just_enough Sample.NUM_EXAMPLES
           (Some 1000000) 250000 None 1 10 2048 64 false 8
           Sample.long_iterations eq_refl eq_refl);
    simpl; lia.
Defined.

(** Two managers that both show [300 steps.] share the cadence 300. *)
Lemma equal_labels_equal_schedules_sample :
  basis_chosen (Some 1000) = basis_chosen (Some 900) /\ 300 = 300.
Proof.
  exact (equal_labels_equal_schedules Sample.NUM_EXAMPLES
           (Some 1000) 300 None 1 10 2048 64 true 8 Sample.on_tpu_by_steps
           (Some 900) 300 None 5 10 4096 64 false 8
           {| train_eval_iterations := 3;
              _single_iteration_train_steps := Some 300;
              _single_iteration_train_epochs := None;
              max_length := 64;
              batch_size := 4096;
              use_tpu := false;
              num_tpu_shards := 8 |}
           "300 steps."%string eq_refl eq_refl eq_refl eq_refl).
Defined.

(** Doubling the batch of the sample TPU manager halves the steps. *)
Lemma epochs_to_steps_shrinks_with_batch_size_sample :
  exists steps1 steps2,
    epochs_to_steps Sample.NUM_EXAMPLES Sample.on_tpu_by_epochs 1 TRAIN
    = Return steps1
    /\ epochs_to_steps Sample.NUM_EXAMPLES
         {| train_eval_iterations := 10;
            _single_iteration_train_steps := None;
            _single_iteration_train_epochs := Some 1;
            max_length := 64;
            batch_size := 4096;
            use_tpu := true;
            num_tpu_shards := 8 |} 1 TRAIN = Return steps2
    /\ 0 <= steps2 <= steps1.
Proof.
  apply (epochs_to_steps_shrinks_with_batch_size Sample.NUM_EXAMPLES
           Sample.on_tpu_by_epochs
           {| train_eval_iterations := 10;
              _single_iteration_train_steps := None;
              _single_iteration_train_epochs := Some 1;
              max_length := 64;
              batch_size := 4096;
              use_tpu := true;
              num_tpu_shards := 8 |} 1 TRAIN eq_refl eq_refl eq_refl);
    simpl; lia.
Defined.

(** One pass over the 3000 evaluation examples is 93 full batches. *)
Lemma single_iteration_eval_steps_covers_one_pass_sample :
  exists steps,
    single_iteration_eval_steps Sample.NUM_EXAMPLES Sample.on_tpu_by_epochs
    = Return (Some steps)
    /\ steps * 2048 <= Sample.NUM_EXAMPLES EVAL * 64 < steps * 2048 + 2048
    /\ (0 <= Sample.NUM_EXAMPLES EVAL * 64 ->
        (steps = 0 <-> Sample.NUM_EXAMPLES EVAL * 64 < 2048)).
Proof.
  destruct (single_iteration_eval_steps_covers_one_pass Sample.NUM_EXAMPLES
              None 300 None 1 10 2048 64 true 8 Sample.on_tpu_by_epochs
              eq_refl) as [_ H].
  apply H; [reflexivity | lia].
Defined.

(** Both step counts of the sample TPU manager are numbers. *)
Lemma step_counts_are_numbers_on_tpu_sample :
  exists steps_of_training steps_of_evaluation,
    single_iteration_train_steps Sample.NUM_EXAMPLES Sample.on_tpu_by_epochs
    = Return (Some steps_of_training)
    /\ single_iteration_eval_steps Sample.NUM_EXAMPLES
         Sample.on_tpu_by_epochs = Return (Some steps_of_evaluation).
Proof.
  destruct (step_counts_are_numbers_on_tpu Sample.NUM_EXAMPLES
              None 300 None 1 10 2048 64 true 8 Sample.on_tpu_by_epochs
              eq_refl) as [H _].
  apply H; [reflexivity | lia].
Defined.
